(** * Question-paper moderation: the analysis and scoring engine

    A shallow embedding of [NLPAnalyzer] (core/nlp_analyzer.py): the keyword
    tables, the per-question classifiers, the batch loop of
    [analyze_questions], the suggestion generator and the overall scorer,
    followed by the properties of the engine that are stated about them.

    Conventions of the embedding.
    - A Python [str] is a [string] whose characters are the code points
      0..255 (Latin-1).  [lower], [split], [\s] and [\w] follow CPython on
      that range; [str.lower] maps it into itself, one character to one.
    - A Python [dict] is an association list in insertion order: the code
      iterates over its dictionaries and [max] resolves ties by that order.
    - A Python [float] is an exact rational of [Q]; [int] counters are [nat].
    - A raised exception is the [Raise] branch of [result]. *)

From Stdlib Require Import String Ascii Bool Arith ZArith QArith Qabs Qminmax Qround.
From Stdlib Require Import Lia Lqa Permutation DecimalString List.
Import ListNotations.

Local Open Scope string_scope.
Local Open Scope nat_scope.

(* ===================================================================== *)
(** ** Exceptions *)
(* ===================================================================== *)

Inductive exn := KeyError | ValueError | ZeroDivisionError.

Inductive result (A : Type) : Type :=
| Ok (a : A)
| Raise (e : exn).

Arguments Ok {A} a.
Arguments Raise {A} e.

Definition bind {A B : Type} (m : result A) (k : A -> result B) : result B :=
  match m with
  | Ok a => k a
  | Raise e => Raise e
  end.

Notation "x <- m ;; k" := (bind m (fun x => k))
  (at level 61, m at next level, right associativity).

(** A [for] loop whose body threads the loop state and may raise. *)
Fixpoint for_each {A S : Type} (body : A -> S -> result S) (l : list A) (s : S)
  : result S :=
  match l with
  | [] => Ok s
  | x :: l' => s' <- body x s ;; for_each body l' s'
  end.

(* ===================================================================== *)
(** ** Python strings *)
(* ===================================================================== *)

Module PyStr.

Definition between (lo hi n : nat) : bool := (lo <=? n) && (n <=? hi).

(** [str.isspace] of one character, which is also the class [\s]. *)
Definition isspace (c : ascii) : bool :=
  let n := nat_of_ascii c in
  between 9 13 n || between 28 32 n || (n =? 133) || (n =? 160).

(** The class [\w]: alphanumeric characters and the underscore. *)
Definition isword (c : ascii) : bool :=
  let n := nat_of_ascii c in
  between 48 57 n || between 65 90 n || (n =? 95) || between 97 122 n
  || (n =? 170) || (n =? 178) || (n =? 179) || (n =? 181)
  || (n =? 185) || (n =? 186) || between 188 190 n
  || between 192 214 n || between 216 246 n || between 248 255 n.

Definition lower_char (c : ascii) : ascii :=
  let n := nat_of_ascii c in
  if between 65 90 n || (between 192 222 n && negb (n =? 215))
  then ascii_of_nat (n + 32)
  else c.

(** [s.lower()] *)
Fixpoint lower (s : string) : string :=
  match s with
  | EmptyString => EmptyString
  | String c s' => String (lower_char c) (lower s')
  end.

Definition is_empty (s : string) : bool :=
  match s with EmptyString => true | _ => false end.

(** [s.split()]: the maximal runs of non-whitespace characters.
    [word] is the run read so far. *)
Fixpoint split_from (word s : string) : list string :=
  match s with
  | EmptyString => if is_empty word then [] else [word]
  | String c s' =>
      if isspace c
      then (if is_empty word then split_from "" s' else word :: split_from "" s')
      else split_from (word ++ String c "") s'
  end.

Definition split (s : string) : list string := split_from "" s.

(** [s.startswith(p)] *)
Definition startswith (s p : string) : bool := String.prefix p s.

(** [needle in hay] *)
Fixpoint contains (needle hay : string) : bool :=
  String.prefix needle hay
  || match hay with
     | EmptyString => false
     | String _ hay' => contains needle hay'
     end.

(** [sep.join(l)] *)
Definition join (sep : string) (l : list string) : string := String.concat sep l.

(** [str(n)] of a non-negative [int]. *)
Definition of_nat (n : nat) : string := NilEmpty.string_of_uint (Nat.to_uint n).

End PyStr.

(* ===================================================================== *)
(** ** Regular expressions: the fragment of [re] the analyzer uses *)
(* ===================================================================== *)

Module Re.

Inductive regex :=
| Lit (s : string)                       (* a literal run of characters *)
| Rep (least : nat) (cls : ascii -> bool) (* cls{least,} *)
| Cat (r1 r2 : regex)
| Alt (r1 r2 : regex)
| WordBoundary                           (* \b *)
| NotAhead (r : regex).                  (* (?!r) *)

(** A position in the subject: the character before it and what follows. *)
Definition pos : Type := option ascii * string.

Definition word_before (p : pos) : bool :=
  match fst p with Some c => PyStr.isword c | None => false end.

Definition word_after (p : pos) : bool :=
  match snd p with String c _ => PyStr.isword c | EmptyString => false end.

Fixpoint lit (l : string) (p : pos) : list pos :=
  match l with
  | EmptyString => [p]
  | String c l' =>
      match snd p with
      | String d s' => if Ascii.eqb c d then lit l' (Some d, s') else []
      | EmptyString => []
      end
  end.

Fixpoint rep (least : nat) (cls : ascii -> bool) (before : option ascii)
         (s : string) : list pos :=
  ((if least =? 0 then [(before, s)] else [])
   ++ match s with
      | String c s' => if cls c then rep (pred least) cls (Some c) s' else []
      | EmptyString => []
      end)%list.

(** Every position at which a match of [r] that starts at [p] can end.
    [re.search] only asks whether one exists, so the order in which a
    backtracking matcher would try them is immaterial. *)
Fixpoint ends (r : regex) (p : pos) : list pos :=
  match r with
  | Lit s => lit s p
  | Rep n cls => rep n cls (fst p) (snd p)
  | Cat r1 r2 => flat_map (ends r2) (ends r1 p)
  | Alt r1 r2 => (ends r1 p ++ ends r2 p)%list
  | WordBoundary => if xorb (word_before p) (word_after p) then [p] else []
  | NotAhead r' => match ends r' p with [] => [p] | _ :: _ => [] end
  end.

Definition matches_at (r : regex) (p : pos) : bool :=
  match ends r p with [] => false | _ :: _ => true end.

Fixpoint search_from (r : regex) (before : option ascii) (s : string) : bool :=
  matches_at r (before, s)
  || match s with
     | String c s' => search_from r (Some c) s'
     | EmptyString => false
     end.

(** [bool(re.search(r, s))] *)
Definition search (r : regex) (s : string) : bool := search_from r None s.

Definition alts (l : list regex) : regex :=
  match l with
  | [] => NotAhead (Lit "")
  | r :: l' => fold_left Alt l' r
  end.

Definition cats (l : list regex) : regex :=
  match l with
  | [] => Lit ""
  | r :: l' => fold_left Cat l' r
  end.

End Re.

(* ===================================================================== *)
(** ** Python dictionaries, in insertion order *)
(* ===================================================================== *)

Definition dict (V : Type) : Type := list (string * V).

Definition keys {V : Type} (d : dict V) : list string := map fst d.
Definition values {V : Type} (d : dict V) : list V := map snd d.

(** [d[k]] *)
Fixpoint get {V : Type} (d : dict V) (k : string) : result V :=
  match d with
  | [] => Raise KeyError
  | (k', v) :: d' => if String.eqb k' k then Ok v else get d' k
  end.

(** [d[k] = v] *)
Fixpoint set {V : Type} (d : dict V) (k : string) (v : V) : dict V :=
  match d with
  | [] => [(k, v)]
  | (k', v') :: d' =>
      if String.eqb k' k then (k', v) :: d' else (k', v') :: set d' k v
  end.

(** [d[k] += 1] *)
Definition incr (d : dict nat) (k : string) : result (dict nat) :=
  v <- get d k ;; Ok (set d k (v + 1)).

(** [{k: 0 for k in ks}] *)
Definition zeros (ks : list string) : dict nat := map (fun k => (k, 0)) ks.

(** [sum(d.values())] *)
Definition sum_values (d : dict nat) : nat := fold_right Nat.add 0 (values d).

(** [max(l, key=key)]: the first element whose key is maximal; an empty
    argument raises [ValueError]. *)
Fixpoint max_from {A : Type} (key : A -> nat) (best : A) (l : list A) : A :=
  match l with
  | [] => best
  | x :: l' => max_from key (if key best <? key x then x else best) l'
  end.

Definition py_max_by {A : Type} (key : A -> nat) (l : list A) : result A :=
  match l with
  | [] => Raise ValueError
  | x :: l' => Ok (max_from key x l')
  end.

(** [max(l)] of a list of [int]. *)
Definition py_max (l : list nat) : result nat := py_max_by (fun n => n) l.

(** [scores[x]] for [x] one of the dictionary's own keys. *)
Definition item (d : dict nat) (k : string) : nat :=
  match get d k with Ok v => v | Raise _ => 0 end.

(* ===================================================================== *)
(** ** Floats *)
(* ===================================================================== *)

Local Open Scope Q_scope.

Definition Qltb (a b : Q) : bool := negb (Qle_bool b a).

(** [max(a, b)] and [min(a, b)] keep the first argument on a tie. *)
Definition max2 (a b : Q) : Q := if Qltb a b then b else a.
Definition min2 (a b : Q) : Q := if Qltb b a then b else a.

Definition of_int (n : nat) : Q := inject_Z (Z.of_nat n).

Local Close Scope Q_scope.

(* ===================================================================== *)
(** ** The analyzer's tables ([NLPAnalyzer.__init__]) *)
(* ===================================================================== *)

Definition blooms_keywords : dict (list string) :=
  [ ("Knowledge",
      [ "define"; "list"; "identify"; "recall"; "name"; "label"; "match";
        "state"; "describe"; "relate"; "outline"; "who"; "what"; "when"; "where" ]);
    ("Comprehension",
      [ "explain"; "describe"; "discuss"; "interpret"; "summarize"; "classify";
        "paraphrase"; "illustrate"; "translate"; "recognize"; "express"; "why"; "how" ]);
    ("Application",
      [ "apply"; "solve"; "use"; "demonstrate"; "calculate"; "illustrate";
        "show"; "complete"; "examine"; "modify"; "relate"; "change"; "discover" ]);
    ("Analysis",
      [ "analyze"; "compare"; "contrast"; "distinguish"; "examine"; "investigate";
        "categorize"; "differentiate"; "separate"; "infer"; "arrange"; "relationship" ]);
    ("Synthesis",
      [ "create"; "design"; "compose"; "construct"; "formulate"; "propose";
        "develop"; "integrate"; "combine"; "compile"; "devise"; "generate"; "hypothesize" ]);
    ("Evaluation",
      [ "evaluate"; "judge"; "criticize"; "justify"; "assess"; "appraise";
        "argue"; "defend"; "support"; "value"; "critique"; "weigh"; "recommend" ]) ].

Definition difficulty_keywords : dict (list string) :=
  [ ("Easy",
      [ "define"; "list"; "identify"; "recall"; "name"; "what is"; "who is";
        "label"; "match"; "choose"; "find"; "show"; "spell"; "tell" ]);
    ("Medium",
      [ "explain"; "describe"; "compare"; "discuss"; "why"; "how";
        "summarize"; "interpret"; "classify"; "estimate"; "organize" ]);
    ("Hard",
      [ "analyze"; "evaluate"; "justify"; "assess"; "critique"; "hypothesize";
        "synthesize"; "design"; "compose"; "create"; "prove"; "formulate" ]) ].

Definition ambiguity_patterns : list string :=
  [ "etc."; "and so on"; "various"; "several"; "many"; "some";
    "sometimes"; "possibly"; "maybe"; "approximately"; "about";
    "often"; "usually"; "generally"; "mostly"; "rarely" ].

Import Re.

Definition s_plus : regex := Rep 1 PyStr.isspace.
Definition w_plus : regex := Rep 1 PyStr.isword.

Definition comma_or_semicolon (c : ascii) : bool :=
  Ascii.eqb c "," || Ascii.eqb c ";".

Definition quality_issues : list (string * regex) :=
  [ (* \b(not\s+un|not\s+in|never\s+un|never\s+in) *)
    ("double negative",
      Cat WordBoundary
          (alts [ cats [Lit "not"; s_plus; Lit "un"];
                  cats [Lit "not"; s_plus; Lit "in"];
                  cats [Lit "never"; s_plus; Lit "un"];
                  cats [Lit "never"; s_plus; Lit "in"] ]));
    (* \b(wouldn't you|don't you think|isn't it true) *)
    ("leading question",
      Cat WordBoundary
          (alts [ Lit "wouldn't you"; Lit "don't you think"; Lit "isn't it true" ]));
    (* [,;]{3,} *)
    ("complex sentence", Rep 3 comma_or_semicolon);
    (* \b(it|they|them|this|that)\b(?!\s+\w+\s+(is|are|was|were)) *)
    ("vague pronoun",
      cats [ WordBoundary;
             alts [Lit "it"; Lit "they"; Lit "them"; Lit "this"; Lit "that"];
             WordBoundary;
             NotAhead (cats [ s_plus; w_plus; s_plus;
                              alts [Lit "is"; Lit "are"; Lit "was"; Lit "were"] ]) ]) ].

(* ===================================================================== *)
(** ** Per-question classifiers *)
(* ===================================================================== *)

(** [len(question.split())] *)
Definition word_count (question : string) : nat := length (PyStr.split question).

(** The test of the inner loop of [_classify_blooms_level]:
    [f" {keyword} " in f" {question_lower} " or question_lower.startswith(keyword)] *)
Definition blooms_hit (question_lower keyword : string) : bool :=
  PyStr.contains (" " ++ keyword ++ " ") (" " ++ question_lower ++ " ")
  || PyStr.startswith question_lower keyword.

(** The two nested loops shared by both classifiers: every keyword of
    [level] that passes [test] does [scores[level] += 1]. *)
Definition score_keywords (test : string -> bool) (table : dict (list string))
           (scores : dict nat) : result (dict nat) :=
  for_each
    (fun (entry : string * list string) scores =>
       let (level, keywords) := entry in
       for_each (fun keyword scores => if test keyword then incr scores level else Ok scores)
                keywords scores)
    table scores.

Definition blooms_scores (question : string) : result (dict nat) :=
  let question_lower := PyStr.lower question in
  let scores := zeros (keys blooms_keywords) in
  score_keywords (blooms_hit question_lower) blooms_keywords scores.

Definition _classify_blooms_level (question : string) : result string :=
  scores <- blooms_scores question ;;
  max_score <- py_max (values scores) ;;
  if 0 <? max_score
  then py_max_by (item scores) (keys scores)
  else Ok "Knowledge".

Definition difficulty_scores (question : string) : result (dict nat) :=
  let question_lower := PyStr.lower question in
  let scores := [("Easy", 0); ("Medium", 0); ("Hard", 0)] in
  scores <- score_keywords (fun keyword => PyStr.contains keyword question_lower)
                           difficulty_keywords scores ;;
  let word_count := word_count question in
  if 20 <? word_count then incr scores "Hard"
  else if 10 <? word_count then incr scores "Medium"
  else incr scores "Easy".

Definition _estimate_difficulty (question : string) : result string :=
  scores <- difficulty_scores question ;;
  py_max_by (item scores) (keys scores).

Definition _detect_ambiguity (question : string) : bool * list string :=
  let question_lower := PyStr.lower question in
  let found_indicators :=
    filter (fun indicator => PyStr.contains indicator question_lower) ambiguity_patterns in
  (0 <? length found_indicators, found_indicators).

Definition _check_quality_issues (question : string) : list string :=
  let question_lower := PyStr.lower question in
  map fst (filter (fun entry => Re.search (snd entry) question_lower) quality_issues).

Definition complexity_keywords : list string :=
  ["analyze"; "evaluate"; "compare"; "contrast"; "synthesize"].

Definition _estimate_cognitive_load (question : string) : Q :=
  let word_count := word_count question in
  let base_load := (of_int word_count / 10)%Q in
  let complexity_factor :=
    length (filter (fun word => PyStr.contains word (PyStr.lower question))
                   complexity_keywords) in
  min2 (base_load + of_int complexity_factor)%Q 10%Q.

(** The score before the final [max(0.0, score)]. *)
Definition question_score_raw (question : string) (is_ambiguous : bool)
           (issues : list string) : Q :=
  let score := 100%Q in
  let score := if is_ambiguous then (score - 20)%Q else score in
  let score := (score - of_int (length issues) * 10)%Q in
  let word_count := word_count question in
  if word_count <? 5 then (score - 15)%Q
  else if 40 <? word_count then (score - 10)%Q
  else score.

Definition _calculate_question_score (question : string) (is_ambiguous : bool)
           (issues : list string) : Q :=
  max2 0%Q (question_score_raw question is_ambiguous issues).

(* ===================================================================== *)
(** ** The batch loop ([analyze_questions]) *)
(* ===================================================================== *)

Record ambiguous_item := {
  amb_question_number : nat;
  amb_question : string;
  indicators : list string
}.

Record issue_item := {
  iss_question_number : nat;
  iss_question : string;
  issues : list string
}.

Record detail := {
  number : nat;
  text : string;
  blooms_level : string;
  difficulty : string;
  ambiguous : bool;
  cognitive_load : Q;
  detail_word_count : nat;
  quality_score : Q
}.

(** The dictionary [results]; [found_quality_issues] is its key
    ["quality_issues"] and [question_details] its key ["question_details"]. *)
Record results := {
  total_questions : nat;
  blooms_distribution : dict nat;
  difficulty_distribution : dict nat;
  ambiguous_questions : list ambiguous_item;
  found_quality_issues : list issue_item;
  question_details : list detail
}.

(** One iteration of [for i, question in enumerate(questions, 1)]. *)
Definition analyze_step (i : nat) (question : string) (r : results) : result results :=
  blooms_level <- _classify_blooms_level question ;;
  blooms_distribution' <- incr (blooms_distribution r) blooms_level ;;
  difficulty <- _estimate_difficulty question ;;
  difficulty_distribution' <- incr (difficulty_distribution r) difficulty ;;
  let (is_ambiguous, indicators) := _detect_ambiguity question in
  let ambiguous_questions' :=
    if is_ambiguous
    then (ambiguous_questions r
            ++ [ {| amb_question_number := i; amb_question := question;
                    indicators := indicators |} ])%list
    else ambiguous_questions r in
  let issues := _check_quality_issues question in
  let found_quality_issues' :=
    match issues with
    | [] => found_quality_issues r
    | _ :: _ => (found_quality_issues r
                   ++ [ {| iss_question_number := i; iss_question := question;
                           issues := issues |} ])%list
    end in
  let cognitive_load := _estimate_cognitive_load question in
  Ok {| total_questions := total_questions r;
        blooms_distribution := blooms_distribution';
        difficulty_distribution := difficulty_distribution';
        ambiguous_questions := ambiguous_questions';
        found_quality_issues := found_quality_issues';
        question_details :=
          (question_details r
            ++ [ {| number := i;
                    text := question;
                    blooms_level := blooms_level;
                    difficulty := difficulty;
                    ambiguous := is_ambiguous;
                    cognitive_load := cognitive_load;
                    detail_word_count := word_count question;
                    quality_score :=
                      _calculate_question_score question is_ambiguous issues |} ])%list |}.

Fixpoint analyze_loop (i : nat) (questions : list string) (r : results)
  : result results :=
  match questions with
  | [] => Ok r
  | question :: rest => r' <- analyze_step i question r ;; analyze_loop (S i) rest r'
  end.

Definition analyze_questions (questions : list string) : result results :=
  analyze_loop 1 questions
    {| total_questions := length questions;
       blooms_distribution := zeros (keys blooms_keywords);
       difficulty_distribution := [("Easy", 0); ("Medium", 0); ("Hard", 0)];
       ambiguous_questions := [];
       found_quality_issues := [];
       question_details := [] |}.

(* ===================================================================== *)
(** ** Number formatting *)
(* ===================================================================== *)

(** Rounding to the nearest integer, ties to even, as [round] and the
    [.1f] format do. *)
Definition round_half_even (x : Q) : Z :=
  let f := Qfloor x in
  let r := (x - inject_Z f)%Q in
  if Qltb r (1 # 2) then f
  else if Qltb (1 # 2) r then (f + 1)%Z
  else if Z.even f then f else (f + 1)%Z.

(** [f"{x:.1f}"] of a non-negative number. *)
Definition format_1f (x : Q) : string :=
  let tenths := Z.to_nat (round_half_even (x * 10)%Q) in
  PyStr.of_nat (tenths / 10) ++ "." ++ PyStr.of_nat (tenths mod 10).

(** [round(x, 2)] *)
Definition round2 (x : Q) : Q := (inject_Z (round_half_even (x * 100)) / 100)%Q.

(** [a / b] on [int]s. *)
Definition true_div (a b : nat) : result Q :=
  if b =? 0 then Raise ZeroDivisionError else Ok (of_int a / of_int b)%Q.

(* ===================================================================== *)
(** ** Suggestions ([generate_suggestions]) *)
(* ===================================================================== *)

(** The last entry of a suggestion: ["level"] or ["question_number"]. *)
Inductive subject :=
| Level (level : string)
| QuestionNumber (n : nat).

Record suggestion := {
  type_ : string;
  priority : string;
  category : string;
  message : string;
  about : subject
}.

(** [(count / total * 100) if total > 0 else 0] *)
Definition percentage_of (count total : nat) : Q :=
  if 0 <? total then (of_int count / of_int total * 100)%Q else 0%Q.

Definition generate_suggestions (analysis : results) : list suggestion :=
  let total := total_questions analysis in
  (* Check Bloom's distribution *)
  let for_blooms :=
    flat_map
      (fun (entry : string * nat) =>
         let (level, count) := entry in
         let percentage := percentage_of count total in
         if count =? 0 then
           [ {| type_ := "missing_level"; priority := "high";
                category := "blooms_taxonomy";
                message := "No questions at '" ++ level
                           ++ "' level. Add questions requiring "
                           ++ PyStr.lower level ++ " skills.";
                about := Level level |} ]
         else if Qltb percentage 10 then
           [ {| type_ := "low_representation"; priority := "medium";
                category := "blooms_taxonomy";
                message := "Only " ++ format_1f percentage ++ "% questions at '"
                           ++ level ++ "' level. Consider adding more.";
                about := Level level |} ]
         else [])
      (blooms_distribution analysis) in
  (* Check difficulty distribution *)
  let for_difficulty :=
    flat_map
      (fun (entry : string * nat) =>
         let (level, count) := entry in
         let percentage := percentage_of count total in
         if Qltb percentage 20 then
           [ {| type_ := "difficulty_imbalance"; priority := "medium";
                category := "difficulty";
                message := "Only " ++ format_1f percentage
                           ++ "% of questions are '" ++ level
                           ++ "' difficulty. Add more " ++ PyStr.lower level
                           ++ " questions.";
                about := Level level |} ]
         else [])
      (difficulty_distribution analysis) in
  (* Suggestions for ambiguous questions *)
  let for_ambiguous :=
    map (fun item =>
           {| type_ := "ambiguity"; priority := "high"; category := "quality";
              message := "Question " ++ PyStr.of_nat (amb_question_number item)
                         ++ " contains ambiguous terms: "
                         ++ PyStr.join ", " (indicators item)
                         ++ ". Rephrase for clarity.";
              about := QuestionNumber (amb_question_number item) |})
        (ambiguous_questions analysis) in
  (* Suggestions for quality issues *)
  let for_issues :=
    map (fun item =>
           {| type_ := "quality_issue"; priority := "high"; category := "quality";
              message := "Question " ++ PyStr.of_nat (iss_question_number item)
                         ++ " has quality issues: "
                         ++ PyStr.join ", " (issues item)
                         ++ ". Please review.";
              about := QuestionNumber (iss_question_number item) |})
        (found_quality_issues analysis) in
  (for_blooms ++ for_difficulty ++ for_ambiguous ++ for_issues)%list.

(* ===================================================================== *)
(** ** The overall score ([calculate_overall_score]) *)
(* ===================================================================== *)

Inductive pyval :=
| VInt (n : Z)
| VFloat (x : Q)
| VStr (s : string).

Fixpoint map_m {A B : Type} (f : A -> result B) (l : list A) : result (list B) :=
  match l with
  | [] => Ok []
  | x :: l' => y <- f x ;; ys <- map_m f l' ;; Ok (y :: ys)
  end.

Definition _calculate_blooms_score (distribution : dict nat) (total : nat)
  : result Q :=
  let represented_levels :=
    length (filter (fun count => 0 <? count) (values distribution)) in
  let representation_score := (of_int represented_levels / 6 * 50)%Q in
  percentages <-
    map_m (fun count => q <- true_div count total ;; Ok (q * 100)%Q)
          (values distribution) ;;
  let balance_score :=
    match percentages with
    | [] => 0%Q
    | p :: ps => (50 - (fold_left max2 ps p - fold_left min2 ps p))%Q
    end in
  Ok (max2 0 (representation_score + balance_score)).

Definition ideal_percentages : dict nat :=
  [("Easy", 30); ("Medium", 40); ("Hard", 30)].

Definition _calculate_difficulty_score (distribution : dict nat) (total : nat)
  : result Q :=
  score <-
    for_each
      (fun (entry : string * nat) (score : Q) =>
         let (level, ideal_pct) := entry in
         actual_pct <-
           (if 0 <? total
            then count <- get distribution level ;;
                 q <- true_div count total ;;
                 Ok (q * 100)%Q
            else Ok 0%Q) ;;
         let deviation := Qabs (actual_pct - of_int ideal_pct) in
         Ok (score - deviation * (1 # 2))%Q)
      ideal_percentages 100%Q ;;
  Ok (max2 0 score).

Definition _calculate_quality_score (analysis : results) (total : nat) : result Q :=
  let score := 100%Q in
  let ambiguous_count := length (ambiguous_questions analysis) in
  penalty <-
    (if 0 <? total
     then q <- true_div ambiguous_count total ;; Ok (q * 100 * (1 # 2))%Q
     else Ok 0%Q) ;;
  let score := (score - penalty)%Q in
  let issues_count := length (found_quality_issues analysis) in
  penalty <-
    (if 0 <? total
     then q <- true_div issues_count total ;; Ok (q * 100 * (1 # 2))%Q
     else Ok 0%Q) ;;
  let score := (score - penalty)%Q in
  Ok (max2 0 score).

Definition _generate_feedback (score : Q) (grade : string) : string :=
  if Qle_bool 90 score then
    "Excellent question paper with comprehensive cognitive level coverage and good balance."
  else if Qle_bool 75 score then
    "Good question paper. Minor improvements suggested for better balance."
  else if Qle_bool 60 score then
    "Fair question paper. Several improvements needed for comprehensive coverage."
  else "Significant improvements needed. Review suggestions carefully.".

Definition calculate_overall_score (analysis : results) : result (dict pyval) :=
  let total_questions := total_questions analysis in
  if total_questions =? 0 then
    Ok [ ("score", VInt 0); ("grade", VStr "N/A");
         ("feedback", VStr "No questions to analyze") ]
  else
    blooms_score <-
      _calculate_blooms_score (blooms_distribution analysis) total_questions ;;
    difficulty_score <-
      _calculate_difficulty_score (difficulty_distribution analysis) total_questions ;;
    quality_score <- _calculate_quality_score analysis total_questions ;;
    let overall_score :=
      (blooms_score * (4 # 10) + difficulty_score * (3 # 10)
       + quality_score * (3 # 10))%Q in
    let grade :=
      if Qle_bool 90 overall_score then "Excellent"
      else if Qle_bool 75 overall_score then "Good"
      else if Qle_bool 60 overall_score then "Fair"
      else "Needs Improvement" in
    Ok [ ("score", VFloat (round2 overall_score));
         ("grade", VStr grade);
         ("blooms_score", VFloat (round2 blooms_score));
         ("difficulty_score", VFloat (round2 difficulty_score));
         ("quality_score", VFloat (round2 quality_score));
         ("feedback", VStr (_generate_feedback overall_score grade)) ].

(* ===================================================================== *)
(** ** The upload path of the backend (backend/app.py) *)
(* ===================================================================== *)

Module App.

(** [s.rsplit(sep, 1)] for a one-character separator: the text before
    the last separator and the text after it, or [s] alone. *)
Fixpoint rsplit1 (sep : ascii) (s : string) : list string :=
  match s with
  | EmptyString => [""]
  | String c s' =>
      match rsplit1 sep s' with
      | [t] => if Ascii.eqb c sep then [""; t] else [String c t]
      | h :: rest => String c h :: rest
      | [] => []
      end
  end.

(** [app.config['ALLOWED_EXTENSIONS']], a set. *)
Definition ALLOWED_EXTENSIONS : list string := ["txt"; "pdf"; "doc"; "docx"].

(** [x in ALLOWED_EXTENSIONS] *)
Definition is_allowed_extension (x : string) : bool :=
  existsb (String.eqb x) ALLOWED_EXTENSIONS.

(** [allowed_file(filename)]; [None] is the [IndexError] of [[1]] on a
    list with one element. *)
Definition allowed_file (filename : string) : option bool :=
  if PyStr.contains "." filename
  then match nth_error (rsplit1 "."%char filename) 1 with
       | Some extension => Some (is_allowed_extension (PyStr.lower extension))
       | None => None
       end
  else Some false.

(** [s.split(sep)] for a one-character separator. *)
Fixpoint split_on (sep : ascii) (s : string) : list string :=
  match s with
  | EmptyString => [""]
  | String c s' =>
      match split_on sep s' with
      | h :: t => if Ascii.eqb c sep then "" :: h :: t else String c h :: t
      | [] => []
      end
  end.

(** [s.lstrip()], [s.rstrip()] and [s.strip()] *)
Fixpoint lstrip (s : string) : string :=
  match s with
  | EmptyString => EmptyString
  | String c s' => if PyStr.isspace c then lstrip s' else s
  end.

Fixpoint rstrip (s : string) : string :=
  match s with
  | EmptyString => EmptyString
  | String c s' =>
      match rstrip s' with
      | EmptyString => if PyStr.isspace c then EmptyString else String c EmptyString
      | t => String c t
      end
  end.

Definition strip (s : string) : string := rstrip (lstrip s).

(** The questions [upload_paper] reads from the uploaded text:
    [[line.strip() for line in content.split('\n') if line.strip()]] *)
Definition questions_of_content (content : string) : list string :=
  flat_map (fun line => if PyStr.is_empty (strip line) then [] else [strip line])
           (split_on "010"%char content).

End App.

(* ===================================================================== *)
(** ** Auxiliary definitions used to state the properties *)
(* ===================================================================== *)

(** The number of keywords of a list that pass a test. *)
Definition hits (test : string -> bool) (keywords : list string) : nat :=
  length (filter test keywords).

(** The scores a keyword table gives: one entry per level, in table order. *)
Definition table_scores (test : string -> bool) (table : dict (list string))
  : dict nat :=
  map (fun entry => (fst entry, hits test (snd entry))) table.

(** The effect of a successful [d[k] += 1]. *)
Fixpoint bump (k : string) (d : dict nat) : dict nat :=
  match d with
  | [] => []
  | (k', v) :: d' =>
      if String.eqb k' k then (k', v + 1) :: d' else (k', v) :: bump k d'
  end.

(** [level] is the first entry of [scores] with the highest score. *)
Definition earliest_max (scores : dict nat) (level : string) : Prop :=
  exists before after,
    keys scores = (before ++ level :: after)%list
    /\ (forall l, In l before -> item scores l < item scores level)
    /\ (forall l, In l after -> item scores l <= item scores level).

(** The value a computation returns, [dflt] if it raises. *)
Definition value_or {A : Type} (dflt : A) (m : result A) : A :=
  match m with Ok a => a | Raise _ => dflt end.

(** The fields of a detail record other than its ordinal. *)
Definition fields (d : detail) : string * string * string * bool * Q * nat * Q :=
  (text d, blooms_level d, difficulty d, ambiguous d, cognitive_load d,
   detail_word_count d, quality_score d).

(** The rearrangement of [l] that puts at position [j] the element that
    [l] has at position [nth j p]. *)
Definition permute {A : Type} (p : list nat) (l : list A) : list A :=
  flat_map (fun i => match nth_error l i with Some x => [x] | None => [] end) p.

(** What a suggestion is about, without its message text. *)
Definition summary (s : suggestion) : string * string * subject :=
  (type_ s, priority s, about s).

(** The tie-break that resolves toward the last maximal element. *)
Fixpoint last_max_from {A : Type} (key : A -> nat) (best : A) (l : list A) : A :=
  match l with
  | [] => best
  | x :: l' => last_max_from key (if key best <=? key x then x else best) l'
  end.

Definition last_max_by {A : Type} (key : A -> nat) (l : list A) : result A :=
  match l with
  | [] => Raise ValueError
  | x :: l' => Ok (last_max_from key x l')
  end.

(** The tier that the length of a question adds one point to. *)
Definition length_tier (question : string) : string :=
  if 20 <? word_count question then "Hard"
  else if 10 <? word_count question then "Medium"
  else "Easy".

(** The test of the inner loop of [_estimate_difficulty]. *)
Definition difficulty_hit (question_lower keyword : string) : bool :=
  PyStr.contains keyword question_lower.

(** The level and the tier a question is counted under. *)
Definition level_of (question : string) : string :=
  value_or "" (_classify_blooms_level question).

Definition tier_of (question : string) : string :=
  value_or "" (_estimate_difficulty question).

(** [tally ks d]: [d[k] += 1] for each [k] of [ks] in turn. *)
Definition tally (ks : list string) (d : dict nat) : dict nat :=
  fold_left (fun d k => bump k d) ks d.

(** The record that [analyze_step] appends for question [i]. *)
Definition detail_of (i : nat) (question : string) : detail :=
  {| number := i;
     text := question;
     blooms_level := level_of question;
     difficulty := tier_of question;
     ambiguous := fst (_detect_ambiguity question);
     cognitive_load := _estimate_cognitive_load question;
     detail_word_count := word_count question;
     quality_score :=
       _calculate_question_score question (fst (_detect_ambiguity question))
                                 (_check_quality_issues question) |}.

Fixpoint details_from (i : nat) (questions : list string) : list detail :=
  match questions with
  | [] => []
  | question :: rest => detail_of i question :: details_from (S i) rest
  end.

(** The analysis of the empty sequence of questions. *)
Definition empty_analysis : results :=
  {| total_questions := 0;
     blooms_distribution :=
       [("Knowledge", 0); ("Comprehension", 0); ("Application", 0);
        ("Analysis", 0); ("Synthesis", 0); ("Evaluation", 0)];
     difficulty_distribution := [("Easy", 0); ("Medium", 0); ("Hard", 0)];
     ambiguous_questions := [];
     found_quality_issues := [];
     question_details := [] |}.

(** The two worked scenarios. *)
Definition scenario_a : string := "Define the term algorithm.".

Definition scenario_b : string :=
  "Analyze the various causes of inflation and evaluate several policy responses.".

(** The distributions keep the keys they are created with. *)
Definition well_keyed (r : results) : Prop :=
  keys (blooms_distribution r) = keys blooms_keywords
  /\ keys (difficulty_distribution r) = ["Easy"; "Medium"; "Hard"].

(** The entries [analyze_step] appends to ["ambiguous_questions"] and to
    ["quality_issues"] for the questions numbered from [i] on. *)
Fixpoint ambiguous_from (i : nat) (questions : list string) : list ambiguous_item :=
  match questions with
  | [] => []
  | question :: rest =>
      ((if fst (_detect_ambiguity question)
        then [ {| amb_question_number := i; amb_question := question;
                  indicators := snd (_detect_ambiguity question) |} ]
        else [])
       ++ ambiguous_from (S i) rest)%list
  end.

Fixpoint issues_from (i : nat) (questions : list string) : list issue_item :=
  match questions with
  | [] => []
  | question :: rest =>
      (match _check_quality_issues question with
       | [] => []
       | _ :: _ => [ {| iss_question_number := i; iss_question := question;
                        issues := _check_quality_issues question |} ]
       end
       ++ issues_from (S i) rest)%list
  end.

(** [bool(l)] of a list. *)
Definition nonempty {A : Type} (l : list A) : bool :=
  match l with [] => false | _ :: _ => true end.

(** The suggestions of one ["type"]. *)
Definition of_type (t : string) (l : list suggestion) : list suggestion :=
  filter (fun s => String.eqb (type_ s) t) l.

(** [s] starts with [n] characters of the class [cls]. *)
Fixpoint starts_with_run (n : nat) (cls : ascii -> bool) (s : string) : bool :=
  match n with
  | 0 => true
  | S m =>
      match s with
      | String c s' => cls c && starts_with_run m cls s'
      | EmptyString => false
      end
  end.

(** The four loop bodies of [generate_suggestions]. *)
Definition level_suggestions (total : nat) (entry : string * nat) : list suggestion :=
  let (level, count) := entry in
  let percentage := percentage_of count total in
  if count =? 0 then
    [ {| type_ := "missing_level"; priority := "high";
         category := "blooms_taxonomy";
         message := "No questions at '" ++ level
                    ++ "' level. Add questions requiring "
                    ++ PyStr.lower level ++ " skills.";
         about := Level level |} ]
  else if Qltb percentage 10 then
    [ {| type_ := "low_representation"; priority := "medium";
         category := "blooms_taxonomy";
         message := "Only " ++ format_1f percentage ++ "% questions at '"
                    ++ level ++ "' level. Consider adding more.";
         about := Level level |} ]
  else [].

Definition tier_suggestions (total : nat) (entry : string * nat) : list suggestion :=
  let (level, count) := entry in
  let percentage := percentage_of count total in
  if Qltb percentage 20 then
    [ {| type_ := "difficulty_imbalance"; priority := "medium";
         category := "difficulty";
         message := "Only " ++ format_1f percentage
                    ++ "% of questions are '" ++ level
                    ++ "' difficulty. Add more " ++ PyStr.lower level
                    ++ " questions.";
         about := Level level |} ]
  else [].

Definition ambiguity_suggestion (item : ambiguous_item) : suggestion :=
  {| type_ := "ambiguity"; priority := "high"; category := "quality";
     message := "Question " ++ PyStr.of_nat (amb_question_number item)
                ++ " contains ambiguous terms: "
                ++ PyStr.join ", " (indicators item)
                ++ ". Rephrase for clarity.";
     about := QuestionNumber (amb_question_number item) |}.

Definition issue_suggestion (item : issue_item) : suggestion :=
  {| type_ := "quality_issue"; priority := "high"; category := "quality";
     message := "Question " ++ PyStr.of_nat (iss_question_number item)
                ++ " has quality issues: "
                ++ PyStr.join ", " (issues item)
                ++ ". Please review.";
     about := QuestionNumber (iss_question_number item) |}.

(* ===================================================================== *)
(** ** Dictionaries *)
(* ===================================================================== *)

Section DictFacts.

Lemma get_app_skip (pre post : dict nat) (k : string) :
  ~ In k (keys pre) -> get (pre ++ post)%list k = get post k.
Proof.
  induction pre as [|[k' v] pre IH]; intros Hk; [reflexivity|].
  cbn in *. destruct (String.eqb_spec k' k) as [->|_].
  - exfalso. apply Hk. now left.
  - apply IH. intros H. apply Hk. now right.
Qed.

Lemma set_app_skip (pre post : dict nat) (k : string) (v : nat) :
  ~ In k (keys pre) -> set (pre ++ post)%list k v = (pre ++ set post k v)%list.
Proof.
  induction pre as [|[k' v'] pre IH]; intros Hk; [reflexivity|].
  cbn in *. destruct (String.eqb_spec k' k) as [->|_].
  - exfalso. apply Hk. now left.
  - f_equal. apply IH. intros H. apply Hk. now right.
Qed.

Lemma incr_at (pre post : dict nat) (k : string) (n : nat) :
  ~ In k (keys pre) ->
  incr (pre ++ (k, n) :: post)%list k = Ok (pre ++ (k, n + 1) :: post)%list.
Proof.
  intros Hk. unfold incr. rewrite get_app_skip by assumption.
  cbn. rewrite String.eqb_refl. cbn.
  rewrite set_app_skip by assumption. cbn. now rewrite String.eqb_refl.
Qed.

Lemma incr_bump (d : dict nat) (k : string) :
  In k (keys d) -> incr d k = Ok (bump k d).
Proof.
  unfold incr. induction d as [|[k' v] d IH]; intros Hk; [destruct Hk|].
  cbn in *. destruct (String.eqb_spec k' k) as [->|Hne]; [reflexivity|].
  destruct Hk as [Hk|Hk]; [contradiction|].
  specialize (IH Hk). destruct (get d k); cbn in *; [|discriminate].
  now injection IH as ->.
Qed.

Lemma keys_bump (d : dict nat) (k : string) : keys (bump k d) = keys d.
Proof.
  induction d as [|[k' v] d IH]; [reflexivity|].
  cbn. destruct (String.eqb k' k); cbn; [reflexivity|]. now f_equal.
Qed.

Lemma sum_values_cons (k : string) (v : nat) (d : dict nat) :
  sum_values ((k, v) :: d) = v + sum_values d.
Proof. reflexivity. Qed.

Lemma sum_values_bump (d : dict nat) (k : string) :
  In k (keys d) -> sum_values (bump k d) = S (sum_values d).
Proof.
  induction d as [|[k' v] d IH]; intros Hk; [destruct Hk|].
  cbn [bump]. destruct (String.eqb_spec k' k) as [->|Hne];
    rewrite !sum_values_cons.
  - lia.
  - destruct Hk as [Hk|Hk]; [contradiction|]. rewrite (IH Hk). lia.
Qed.

Lemma bump_comm (d : dict nat) (k1 k2 : string) :
  bump k1 (bump k2 d) = bump k2 (bump k1 d).
Proof.
  induction d as [|[k v] d IH]; [reflexivity|].
  cbn. destruct (String.eqb k k2) eqn:E2; destruct (String.eqb k k1) eqn:E1;
    cbn; rewrite ?E1, ?E2; try reflexivity.
  now f_equal.
Qed.

(** Counting a batch of keys into a dictionary does not depend on the
    order of the batch. *)
Lemma fold_bump_perm (ks ks' : list string) :
  Permutation ks ks' ->
  forall d, tally ks d = tally ks' d.
Proof.
  unfold tally.
  induction 1 as [|x l l' _ IH|x y l|l l' l'' _ IH1 _ IH2]; intros d; cbn.
  - reflexivity.
  - apply IH.
  - now rewrite bump_comm.
  - now rewrite IH1.
Qed.

Lemma keys_fold_bump (ks : list string) :
  forall d, keys (tally ks d) = keys d.
Proof.
  unfold tally.
  induction ks as [|k ks IH]; intros d; cbn [fold_left]; [reflexivity|].
  now rewrite IH, keys_bump.
Qed.

Lemma sum_values_fold_bump (ks : list string) :
  forall d, Forall (fun k => In k (keys d)) ks ->
            sum_values (tally ks d)
            = sum_values d + length ks.
Proof.
  unfold tally.
  induction ks as [|k ks IH]; intros d Hks; cbn [fold_left length]; [lia|].
  inversion Hks as [|? ? Hk Hrest]; subst.
  rewrite IH.
  - rewrite sum_values_bump by assumption. lia.
  - rewrite keys_bump. assumption.
Qed.

Lemma keys_zeros (ks : list string) : keys (zeros ks) = ks.
Proof.
  unfold keys, zeros. rewrite map_map. cbn. apply map_id.
Qed.

Lemma keys_table_scores (test : string -> bool) (table : dict (list string)) :
  keys (table_scores test table) = keys table.
Proof. unfold keys, table_scores. now rewrite map_map. Qed.

End DictFacts.

(* ===================================================================== *)
(** ** [max] with a key *)
(* ===================================================================== *)

Section MaxFacts.

Context {A : Type} (key : A -> nat).

(** The scan keeps the invariant: everything before the current best is
    strictly smaller, everything after it and already seen is no larger. *)
Lemma max_from_split (l : list A) :
  forall (pre : list A) (best : A) (mid : list A),
    (forall y, In y pre -> key y < key best) ->
    (forall y, In y mid -> key y <= key best) ->
    exists before after,
      (pre ++ best :: mid ++ l = before ++ max_from key best l :: after)%list
      /\ (forall y, In y before -> key y < key (max_from key best l))
      /\ (forall y, In y after -> key y <= key (max_from key best l)).
Proof.
  induction l as [|x l IH]; intros pre best mid Hpre Hmid; cbn [max_from].
  - exists pre, mid. rewrite app_nil_r. auto.
  - destruct (Nat.ltb_spec (key best) (key x)) as [Hlt|Hge].
    + destruct (IH (pre ++ best :: mid)%list x []) as (b & a & E & Hb & Ha).
      * intros y Hy. apply in_app_or in Hy. destruct Hy as [Hy|[<-|Hy]].
        -- specialize (Hpre y Hy). lia.
        -- assumption.
        -- specialize (Hmid y Hy). lia.
      * intros y [].
      * exists b, a. split; [|auto].
        rewrite <- E. cbn. now rewrite <- app_assoc.
    + destruct (IH pre best (mid ++ [x])%list) as (b & a & E & Hb & Ha).
      * assumption.
      * intros y Hy. apply in_app_or in Hy. destruct Hy as [Hy|[<-|[]]].
        -- now apply Hmid.
        -- assumption.
      * exists b, a. split; [|auto].
        rewrite <- E. now rewrite <- app_assoc.
Qed.

Lemma py_max_by_split (l : list A) (x : A) :
  py_max_by key l = Ok x ->
  exists before after,
    (l = before ++ x :: after)%list
    /\ (forall y, In y before -> key y < key x)
    /\ (forall y, In y after -> key y <= key x).
Proof.
  destruct l as [|x0 l]; cbn; [discriminate|].
  intros H. injection H as <-.
  destruct (max_from_split l [] x0 []) as (b & a & E & Hb & Ha);
    [intros y []|intros y []|].
  exists b, a. auto.
Qed.

Lemma py_max_by_ok (l : list A) :
  l <> [] -> exists x, py_max_by key l = Ok x /\ In x l.
Proof.
  destruct l as [|x0 l]; [congruence|]. intros _.
  exists (max_from key x0 l). split; [reflexivity|].
  destruct (py_max_by_split (x0 :: l) (max_from key x0 l) eq_refl)
    as (b & a & E & _). rewrite E. apply in_or_app. right. now left.
Qed.

End MaxFacts.

Lemma py_max_bound (l : list nat) (m : nat) :
  py_max l = Ok m -> forall v, In v l -> v <= m.
Proof.
  intros H v Hv.
  destruct (py_max_by_split (fun n => n) l m H) as (b & a & -> & Hb & Ha).
  apply in_app_or in Hv. destruct Hv as [Hv|[<-|Hv]].
  - specialize (Hb v Hv). lia.
  - lia.
  - now apply Ha.
Qed.

Lemma item_in_values (d : dict nat) (k : string) :
  In k (keys d) -> In (item d k) (values d).
Proof.
  unfold item. induction d as [|[k' v] d IH]; intros Hk; [destruct Hk|].
  cbn in *. destruct (String.eqb_spec k' k) as [->|Hne]; [now left|].
  destruct Hk as [Hk|Hk]; [contradiction|]. right. now apply IH.
Qed.

Lemma py_max_by_keys_earliest (scores : dict nat) (level : string) :
  py_max_by (item scores) (keys scores) = Ok level -> earliest_max scores level.
Proof.
  intros H. destruct (py_max_by_split _ _ _ H) as (b & a & E & Hb & Ha).
  exists b, a. auto.
Qed.

(* ===================================================================== *)
(** ** The scoring loops in closed form *)
(* ===================================================================== *)

Section ScoreLoop.

Variable test : string -> bool.

Lemma score_level (level : string) (keywords : list string) :
  forall (pre post : dict nat) (n : nat),
    ~ In level (keys pre) ->
    for_each (fun keyword scores =>
                if test keyword then incr scores level else Ok scores)
             keywords (pre ++ (level, n) :: post)%list
    = Ok (pre ++ (level, n + hits test keywords) :: post)%list.
Proof.
  unfold hits.
  induction keywords as [|kw kws IH]; intros pre post n Hpre; cbn [for_each].
  - cbn. now rewrite Nat.add_0_r.
  - cbn [filter]. destruct (test kw).
    + rewrite incr_at by assumption. cbn [bind].
      rewrite IH by assumption. cbn [length].
      now replace (n + 1 + length (filter test kws))
        with (n + S (length (filter test kws))) by lia.
    + cbn [bind]. now apply IH.
Qed.

Lemma score_keywords_from (todo : dict (list string)) :
  forall done : dict (list string),
    NoDup (keys (done ++ todo)%list) ->
    score_keywords test todo (table_scores test done ++ zeros (keys todo))%list
    = Ok (table_scores test (done ++ todo)%list).
Proof.
  unfold score_keywords.
  induction todo as [|[level keywords] todo IH]; intros done Hnd.
  - cbn. now rewrite !app_nil_r.
  - cbn [for_each keys map fst zeros].
    change (map (fun k => (k, 0)) (map fst todo)) with (zeros (keys todo)).
    rewrite score_level.
    + cbn [bind plus].
      specialize (IH (done ++ [(level, keywords)])%list).
      rewrite <- app_assoc in IH. cbn [app] in IH.
      rewrite <- (IH Hnd). f_equal.
      unfold table_scores. rewrite map_app. cbn [map fst snd].
      now rewrite <- app_assoc.
    + rewrite keys_table_scores. unfold keys in *. rewrite map_app in Hnd.
      cbn [map fst] in Hnd. apply NoDup_remove_2 in Hnd.
      intros Hin. apply Hnd. apply in_or_app. now left.
Qed.

Lemma score_keywords_closed (table : dict (list string)) :
  NoDup (keys table) ->
  score_keywords test table (zeros (keys table)) = Ok (table_scores test table).
Proof. intros Hnd. exact (score_keywords_from table [] Hnd). Qed.

End ScoreLoop.

(* ===================================================================== *)
(** ** The classifiers never raise *)
(* ===================================================================== *)

Lemma blooms_keys_nodup : NoDup (keys blooms_keywords).
Proof. cbn. repeat constructor; cbn; intuition discriminate. Qed.

Lemma difficulty_keys_nodup : NoDup (keys difficulty_keywords).
Proof. cbn. repeat constructor; cbn; intuition discriminate. Qed.

Lemma blooms_scores_closed (question : string) :
  blooms_scores question
  = Ok (table_scores (blooms_hit (PyStr.lower question)) blooms_keywords).
Proof.
  unfold blooms_scores. apply score_keywords_closed, blooms_keys_nodup.
Qed.

Lemma difficulty_scores_closed (question : string) :
  difficulty_scores question
  = Ok (bump (length_tier question)
             (table_scores (difficulty_hit (PyStr.lower question))
                           difficulty_keywords)).
Proof.
  unfold difficulty_scores.
  change [("Easy", 0); ("Medium", 0); ("Hard", 0)]
    with (zeros (keys difficulty_keywords)).
  change (fun keyword => PyStr.contains keyword (PyStr.lower question))
    with (difficulty_hit (PyStr.lower question)).
  rewrite score_keywords_closed by apply difficulty_keys_nodup.
  cbn [bind]. unfold length_tier.
  destruct (20 <? word_count question);
    [|destruct (10 <? word_count question)];
    apply incr_bump; rewrite keys_table_scores; cbn; auto.
Qed.

Lemma classify_blooms_earliest (question : string) :
  exists level,
    _classify_blooms_level question = Ok level
    /\ In level (keys blooms_keywords)
    /\ earliest_max
         (table_scores (blooms_hit (PyStr.lower question)) blooms_keywords) level.
Proof.
  unfold _classify_blooms_level. rewrite blooms_scores_closed. cbn [bind].
  set (scores := table_scores _ _).
  assert (Hkeys : keys scores = keys blooms_keywords)
    by apply keys_table_scores.
  destruct (py_max_by_ok (fun n => n) (values scores)) as (m & Hm & _).
  { unfold values, scores, table_scores. rewrite map_map. discriminate. }
  unfold py_max at 1. rewrite Hm. cbn [bind].
  destruct (Nat.ltb_spec 0 m) as [Hpos|Hzero].
  - destruct (py_max_by_ok (item scores) (keys scores)) as (level & Hl & Hin).
    { rewrite Hkeys. discriminate. }
    exists level. split; [assumption|]. split; [now rewrite <- Hkeys|].
    now apply py_max_by_keys_earliest.
  - exists "Knowledge". split; [reflexivity|]. split; [cbn; auto|].
    exists [], (tl (keys blooms_keywords)).
    split; [now rewrite Hkeys|]. split; [intros l []|].
    intros l Hl.
    assert (Hle : item scores l <= m).
    { apply (py_max_bound _ _ Hm), item_in_values.
      rewrite Hkeys. now right. }
    lia.
Qed.

Lemma estimate_difficulty_earliest (question : string) :
  exists tier,
    _estimate_difficulty question = Ok tier
    /\ In tier ["Easy"; "Medium"; "Hard"]
    /\ earliest_max
         (bump (length_tier question)
               (table_scores (difficulty_hit (PyStr.lower question))
                             difficulty_keywords)) tier.
Proof.
  unfold _estimate_difficulty. rewrite difficulty_scores_closed. cbn [bind].
  set (scores := bump _ _).
  assert (Hkeys : keys scores = ["Easy"; "Medium"; "Hard"]).
  { unfold scores. now rewrite keys_bump, keys_table_scores. }
  destruct (py_max_by_ok (item scores) (keys scores)) as (tier & Ht & Hin).
  { rewrite Hkeys. discriminate. }
  exists tier. split; [assumption|]. split; [now rewrite <- Hkeys|].
  now apply py_max_by_keys_earliest.
Qed.

Lemma classify_level_of (question : string) :
  _classify_blooms_level question = Ok (level_of question)
  /\ In (level_of question) (keys blooms_keywords).
Proof.
  destruct (classify_blooms_earliest question) as (level & H & Hin & _).
  unfold level_of. rewrite H. auto.
Qed.

Lemma estimate_tier_of (question : string) :
  _estimate_difficulty question = Ok (tier_of question)
  /\ In (tier_of question) ["Easy"; "Medium"; "Hard"].
Proof.
  destruct (estimate_difficulty_earliest question) as (tier & H & Hin & _).
  unfold tier_of. rewrite H. auto.
Qed.

(* ===================================================================== *)
(** ** The batch loop in closed form *)
(* ===================================================================== *)

Lemma analyze_step_closed (i : nat) (question : string) (r : results) :
  well_keyed r ->
  exists r',
    analyze_step i question r = Ok r'
    /\ well_keyed r'
    /\ total_questions r' = total_questions r
    /\ blooms_distribution r' = bump (level_of question) (blooms_distribution r)
    /\ difficulty_distribution r'
       = bump (tier_of question) (difficulty_distribution r)
    /\ question_details r' = (question_details r ++ [detail_of i question])%list.
Proof.
  intros [Hb Hd].
  destruct (classify_level_of question) as [Hc Hcin].
  destruct (estimate_tier_of question) as [He Hein].
  unfold analyze_step. rewrite Hc. cbn [bind].
  rewrite incr_bump by now rewrite Hb. cbn [bind].
  rewrite He. cbn [bind].
  rewrite incr_bump by now rewrite Hd. cbn [bind].
  unfold detail_of.
  destruct (_detect_ambiguity question) as [is_ambiguous found].
  eexists. split; [reflexivity|]. unfold well_keyed.
  cbn [total_questions blooms_distribution difficulty_distribution
       question_details fst].
  rewrite !keys_bump. repeat split; auto.
Qed.

Lemma analyze_loop_closed (questions : list string) :
  forall (i : nat) (r : results),
    well_keyed r ->
    exists r',
      analyze_loop i questions r = Ok r'
      /\ total_questions r' = total_questions r
      /\ blooms_distribution r'
         = tally (map level_of questions) (blooms_distribution r)
      /\ difficulty_distribution r'
         = tally (map tier_of questions) (difficulty_distribution r)
      /\ question_details r'
         = (question_details r ++ details_from i questions)%list.
Proof.
  induction questions as [|question rest IH]; intros i r Hr; cbn [analyze_loop].
  - exists r. cbn. rewrite app_nil_r. auto.
  - destruct (analyze_step_closed i question r Hr)
      as (r1 & Hstep & Hr1 & Ht & Hb & Hd & Hq).
    rewrite Hstep. cbn [bind].
    destruct (IH (S i) r1 Hr1) as (r' & Hloop & Ht' & Hb' & Hd' & Hq').
    exists r'. split; [assumption|].
    rewrite Ht', Hb', Hd', Hq', Ht, Hb, Hd, Hq.
    cbn [map tally fold_left details_from].
    rewrite <- app_assoc. auto.
Qed.

Lemma analyze_questions_closed (questions : list string) :
  exists r,
    analyze_questions questions = Ok r
    /\ total_questions r = length questions
    /\ blooms_distribution r
       = tally (map level_of questions) (zeros (keys blooms_keywords))
    /\ difficulty_distribution r
       = tally (map tier_of questions) [("Easy", 0); ("Medium", 0); ("Hard", 0)]
    /\ question_details r = details_from 1 questions.
Proof.
  unfold analyze_questions.
  match goal with
  | |- context [analyze_loop 1 questions ?r0] =>
      destruct (analyze_loop_closed questions 1 r0) as (r & H & Ht & Hb & Hd & Hq)
  end.
  - split; reflexivity.
  - exists r. auto.
Qed.

Lemma length_details_from (questions : list string) :
  forall i, length (details_from i questions) = length questions.
Proof.
  induction questions as [|q rest IH]; intros i; cbn; [reflexivity|].
  now rewrite IH.
Qed.

Lemma fields_details_from (questions : list string) :
  forall i, map fields (details_from i questions)
            = map (fun q => fields (detail_of 0 q)) questions.
Proof.
  induction questions as [|q rest IH]; intros i; cbn [details_from map];
    [reflexivity|].
  now rewrite IH.
Qed.

Lemma details_from_forall (P : detail -> Prop) (questions : list string) :
  (forall i q, P (detail_of i q)) ->
  forall i, Forall P (details_from i questions).
Proof.
  intros HP. induction questions as [|q rest IH]; intros i; cbn; constructor; auto.
Qed.

Lemma permute_map {A B : Type} (f : A -> B) (p : list nat) (l : list A) :
  permute p (map f l) = map f (permute p l).
Proof.
  unfold permute. induction p as [|i p IH]; cbn [flat_map map]; [reflexivity|].
  rewrite map_app, IH. f_equal.
  rewrite nth_error_map. now destruct (nth_error l i).
Qed.

(* ===================================================================== *)
(** ** Rearrangements by position *)
(* ===================================================================== *)

Lemma permute_cons {A : Type} (i : nat) (p : list nat) (l : list A) :
  permute (i :: p) l
  = (match nth_error l i with Some x => [x] | None => [] end ++ permute p l)%list.
Proof. reflexivity. Qed.

Lemma permute_app {A : Type} (p q : list nat) (l : list A) :
  permute (p ++ q) l = (permute p l ++ permute q l)%list.
Proof. apply flat_map_app. Qed.

Section Permute.

Context {A : Type}.

Lemma permute_shift (x : A) (l : list A) (p : list nat) :
  permute (map S p) (x :: l) = permute p l.
Proof.
  unfold permute. induction p as [|i p IH]; cbn [map flat_map]; [reflexivity|].
  now rewrite IH.
Qed.

Lemma permute_identity (l : list A) : permute (seq 0 (length l)) l = l.
Proof.
  induction l as [|x l IH]; [reflexivity|].
  cbn [length seq]. rewrite <- seq_shift.
  change (permute (0 :: map S (seq 0 (length l))) (x :: l))
    with (x :: permute (map S (seq 0 (length l))) (x :: l)).
  now rewrite permute_shift, IH.
Qed.

Lemma permute_is_permutation (l : list A) (p : list nat) :
  Permutation p (seq 0 (length l)) -> Permutation (permute p l) l.
Proof.
  intros Hp. rewrite <- (permute_identity l) at 2.
  unfold permute. now apply Permutation_flat_map.
Qed.

Lemma nth_error_permute (l : list A) (p : list nat) :
  (forall j, In j p -> j < length l) ->
  forall i, nth_error (permute p l) i
            = match nth_error p i with
              | Some j => nth_error l j
              | None => None
              end.
Proof.
  induction p as [|j p IH]; intros Hp i.
  - now destruct i.
  - assert (Hj : j < length l) by (apply Hp; now left).
    destruct (nth_error l j) as [x|] eqn:Ex;
      [|apply nth_error_None in Ex; lia].
    unfold permute. cbn [flat_map]. rewrite Ex. cbn [app].
    destruct i as [|i]; cbn [nth_error]; [now rewrite Ex|].
    apply IH. intros k Hk. apply Hp. now right.
Qed.

Lemma permute_permute (l : list A) (p1 p2 : list nat) :
  (forall j, In j p1 -> j < length l) ->
  permute p2 (permute p1 l) = permute (permute p2 p1) l.
Proof.
  intros Hp1. induction p2 as [|i p2 IH]; [reflexivity|].
  rewrite !permute_cons, permute_app, <- IH. f_equal.
  rewrite nth_error_permute by assumption.
  destruct (nth_error p1 i) as [j|]; [|reflexivity].
  rewrite permute_cons. cbn. now rewrite app_nil_r.
Qed.

End Permute.

(** Every permutation of a list is its rearrangement by a permutation of
    its positions. *)
Lemma permutation_by_positions {A : Type} (l l' : list A) :
  Permutation l l' ->
  exists p, Permutation p (seq 0 (length l)) /\ l' = permute p l.
Proof.
  induction 1 as [|x l l' Hll (p & Hp & ->)|x y l
                  |l l' l'' H1 (p1 & Hp1 & ->) H2 (p2 & Hp2 & ->)].
  - exists []. split; [constructor|reflexivity].
  - exists (0 :: map S p). split.
    + cbn [length seq]. rewrite <- seq_shift.
      constructor. now apply Permutation_map.
    + rewrite permute_cons. cbn [nth_error app].
      now rewrite permute_shift.
  - exists (1 :: 0 :: map S (map S (seq 0 (length l)))). split.
    + cbn [length seq]. rewrite !seq_shift. apply perm_swap.
    + rewrite !permute_cons. cbn [nth_error app].
      now rewrite !permute_shift, permute_identity.
  - assert (Hlen : length (permute p1 l) = length l)
      by (apply Permutation_length; now apply permute_is_permutation).
    assert (Hlen1 : length p1 = length l)
      by (apply Permutation_length in Hp1; now rewrite length_seq in Hp1).
    exists (permute p2 p1). split.
    + apply Permutation_trans with p1; [|assumption].
      apply permute_is_permutation. now rewrite Hlen1, <- Hlen.
    + apply permute_permute. intros j Hj.
      apply (Permutation_in _ Hp1) in Hj. apply in_seq in Hj. lia.
Qed.

(* ===================================================================== *)
(** ** Numbers *)
(* ===================================================================== *)

Lemma of_int_nonneg (n : nat) : (0 <= of_int n)%Q.
Proof.
  unfold of_int. change 0%Q with (inject_Z 0). rewrite <- Zle_Qle. lia.
Qed.

Lemma of_int_le (n m : nat) : n <= m -> (of_int n <= of_int m)%Q.
Proof. intros H. unfold of_int. rewrite <- Zle_Qle. lia. Qed.

Lemma max2_cases (a b : Q) :
  ((a < b)%Q /\ max2 a b = b) \/ ((b <= a)%Q /\ max2 a b = a).
Proof.
  unfold max2, Qltb. destruct (Qle_bool b a) eqn:E; cbn [negb].
  - right. split; [now apply Qle_bool_iff|reflexivity].
  - left. split; [|reflexivity]. apply Qnot_le_lt. intros H.
    apply Qle_bool_iff in H. congruence.
Qed.

Lemma min2_cases (a b : Q) :
  ((b < a)%Q /\ min2 a b = b) \/ ((a <= b)%Q /\ min2 a b = a).
Proof.
  unfold min2, Qltb. destruct (Qle_bool a b) eqn:E; cbn [negb].
  - right. split; [now apply Qle_bool_iff|reflexivity].
  - left. split; [|reflexivity]. apply Qnot_le_lt. intros H.
    apply Qle_bool_iff in H. congruence.
Qed.

(* ===================================================================== *)
(** ** Bounds of the per-question scores *)
(* ===================================================================== *)

Lemma check_quality_issues_at_most_four (question : string) :
  length (_check_quality_issues question) <= 4.
Proof.
  unfold _check_quality_issues. rewrite length_map.
  apply (filter_length_le _ quality_issues).
Qed.

Lemma question_score_raw_bounds (question : string) (is_ambiguous : bool)
      (issues : list string) :
  length issues <= 4 ->
  (25 <= question_score_raw question is_ambiguous issues <= 100)%Q.
Proof.
  intros Hlen. unfold question_score_raw.
  pose proof (of_int_nonneg (length issues)) as H0.
  pose proof (of_int_le _ _ Hlen) as H4.
  change (of_int 4) with 4%Q in H4.
  generalize dependent (of_int (length issues)). intros n H0 H4.
  destruct is_ambiguous;
    destruct (word_count question <? 5);
    destruct (40 <? word_count question); lra.
Qed.

Lemma calculate_question_score_unclamped (question : string) (is_ambiguous : bool)
      (issues : list string) :
  length issues <= 4 ->
  _calculate_question_score question is_ambiguous issues
  = question_score_raw question is_ambiguous issues.
Proof.
  intros Hlen. unfold _calculate_question_score.
  pose proof (question_score_raw_bounds question is_ambiguous issues Hlen) as [Hlo _].
  destruct (max2_cases 0 (question_score_raw question is_ambiguous issues))
    as [[_ ->]|[Hle _]]; [reflexivity|lra].
Qed.

Lemma estimate_cognitive_load_bounds (question : string) :
  (0 <= _estimate_cognitive_load question <= 10)%Q.
Proof.
  unfold _estimate_cognitive_load.
  set (cf := length _).
  pose proof (of_int_nonneg (word_count question)) as Hw.
  pose proof (of_int_nonneg cf) as Hc.
  generalize dependent (of_int cf). generalize dependent (of_int (word_count question)).
  intros w Hw c Hc.
  assert (Hbase : (0 <= w / 10)%Q).
  { unfold Qdiv. apply Qmult_le_0_compat; [assumption|].
    apply Qinv_le_0_compat. lra. }
  destruct (min2_cases (w / 10 + c) 10) as [[H ->]|[H ->]]; lra.
Qed.

(* ===================================================================== *)
(** ** Properties of the engine *)
(* ===================================================================== *)

Lemma analyze_empty : analyze_questions [] = Ok empty_analysis.
Proof. reflexivity. Qed.

(** C1, as stated: an analysis with [total_questions == 0] gets no
    suggestion.  It fails on the analysis of the empty input: every level
    has count 0 there, so each one is reported missing. *)
Lemma suggestions_for_no_questions_not_empty :
  ~ (forall analysis : results,
        total_questions analysis = 0 -> generate_suggestions analysis = []).
Proof.
  intros H. specialize (H empty_analysis eq_refl). discriminate H.
Qed.

(** C1, amended: for the analysis of the empty input ([total_questions == 0],
    all counts zero) [generate_suggestions] returns nine suggestions: a
    high-priority [missing_level] for each of the six cognitive levels in
    canonical order, then a medium-priority [difficulty_imbalance] for each of
    Easy, Medium and Hard; there is no per-question suggestion. *)
Theorem suggestions_for_empty_input :
  analyze_questions [] = Ok empty_analysis
  /\ total_questions empty_analysis = 0
  /\ map summary (generate_suggestions empty_analysis)
     = [ ("missing_level", "high", Level "Knowledge");
         ("missing_level", "high", Level "Comprehension");
         ("missing_level", "high", Level "Application");
         ("missing_level", "high", Level "Analysis");
         ("missing_level", "high", Level "Synthesis");
         ("missing_level", "high", Level "Evaluation");
         ("difficulty_imbalance", "medium", Level "Easy");
         ("difficulty_imbalance", "medium", Level "Medium");
         ("difficulty_imbalance", "medium", Level "Hard") ].
Proof. repeat split; vm_compute; reflexivity. Qed.

(** C2, as stated: on a tie for the highest score [_estimate_difficulty]
    returns the last maximal tier.  It fails on ["explain"]: Easy (one
    point for the length) and Medium (one keyword) tie, and Easy is
    returned. *)
Lemma difficulty_tie_not_last_maximal :
  ~ (forall (question : string) (scores : dict nat),
        difficulty_scores question = Ok scores ->
        _estimate_difficulty question = last_max_by (item scores) (keys scores)).
Proof.
  intros H.
  specialize (H "explain" [("Easy", 1); ("Medium", 1); ("Hard", 0)] eq_refl).
  vm_compute in H. discriminate H.
Qed.

(** C2, amended: [_estimate_difficulty] returns the first maximal tier in
    the order Easy, Medium, Hard: Easy wins its ties against Medium and
    Hard, and Medium wins its ties against Hard. The three scores are the
    keyword hits of the tier plus one point for the tier of the length. *)
Theorem difficulty_tie_first_maximal (question : string) :
  exists e m h : nat,
    difficulty_scores question = Ok [("Easy", e); ("Medium", m); ("Hard", h)]
    /\ [("Easy", e); ("Medium", m); ("Hard", h)]
       = bump (length_tier question)
              (table_scores (difficulty_hit (PyStr.lower question))
                            difficulty_keywords)
    /\ _estimate_difficulty question
       = Ok (if (m <=? e) && (h <=? e) then "Easy"
             else if h <=? m then "Medium"
             else "Hard").
Proof.
  unfold _estimate_difficulty. rewrite difficulty_scores_closed.
  unfold table_scores, difficulty_keywords. cbn [map fst snd].
  generalize (hits (difficulty_hit (PyStr.lower question))).
  intros count.
  match goal with
  | |- context [bump _ [(_, ?a); (_, ?b); (_, ?c)]] =>
      generalize a, b, c
  end.
  intros a b c.
  assert (Hb : exists e m h,
             bump (length_tier question) [("Easy", a); ("Medium", b); ("Hard", c)]
             = [("Easy", e); ("Medium", m); ("Hard", h)]).
  { unfold length_tier.
    destruct (20 <? word_count question);
      [|destruct (10 <? word_count question)];
      cbn; eauto. }
  destruct Hb as (e & m & h & ->).
  exists e, m, h. split; [reflexivity|]. split; [reflexivity|].
  cbn [bind keys map fst py_max_by max_from].
  change (item [("Easy", e); ("Medium", m); ("Hard", h)] "Easy") with e.
  change (item [("Easy", e); ("Medium", m); ("Hard", h)] "Medium") with m.
  destruct (Nat.ltb_spec e m) as [Hem|Hem].
  - change (item [("Easy", e); ("Medium", m); ("Hard", h)] "Medium") with m.
    change (item [("Easy", e); ("Medium", m); ("Hard", h)] "Hard") with h.
    destruct (Nat.leb_spec m e); [lia|]. cbn [andb].
    destruct (Nat.ltb_spec m h), (Nat.leb_spec h m); (reflexivity || lia).
  - change (item [("Easy", e); ("Medium", m); ("Hard", h)] "Easy") with e.
    change (item [("Easy", e); ("Medium", m); ("Hard", h)] "Hard") with h.
    destruct (Nat.leb_spec m e); [|lia]. cbn [andb].
    destruct (Nat.ltb_spec e h), (Nat.leb_spec h e); try (reflexivity || lia).
    destruct (Nat.leb_spec h m); [lia|reflexivity].
Qed.

(** C3, as stated: the record of ["Define the term algorithm."] has
    quality score 100.  The question has four words, so the short-question
    penalty applies and the score is not 100. *)
Lemma scenario_a_score_not_100 :
  ~ (exists (r : results) (d : detail),
        analyze_questions [scenario_a] = Ok r
        /\ question_details r = [d]
        /\ blooms_level d = "Knowledge"
        /\ difficulty d = "Easy"
        /\ ambiguous d = false
        /\ (quality_score d == 100)%Q).
Proof.
  intros (r & d & Hr & Hd & _ & _ & _ & Hq).
  vm_compute in Hr. injection Hr as <-.
  cbn in Hd. injection Hd as <-.
  vm_compute in Hq. discriminate Hq.
Qed.

(** C3, amended: for the single-question input
    ["Define the term algorithm."] the record has cognitive level
    Knowledge, difficulty Easy, is not ambiguous, has word count 4 and,
    by the short-question penalty alone, quality score 85.0. *)
Theorem scenario_a_record :
  exists (r : results) (d : detail),
    analyze_questions [scenario_a] = Ok r
    /\ question_details r = [d]
    /\ blooms_level d = "Knowledge"
    /\ difficulty d = "Easy"
    /\ ambiguous d = false
    /\ _check_quality_issues scenario_a = []
    /\ detail_word_count d = 4
    /\ (quality_score d == 85)%Q.
Proof.
  do 2 eexists. split; [vm_compute; reflexivity|].
  repeat split; vm_compute; reflexivity.
Qed.

(** C4: the cognitive level returned is the earliest level, in canonical
    order, among those with the highest keyword-hit count (Knowledge when
    every count is zero); for the question of scenario B, where Analysis and
    Evaluation both count 1, it is Analysis, and the question is ambiguous
    with the markers "various" and "several". *)
Theorem blooms_tie_earliest_level :
  (forall question : string,
      exists (scores : dict nat) (level : string),
        blooms_scores question = Ok scores
        /\ scores = table_scores (blooms_hit (PyStr.lower question)) blooms_keywords
        /\ keys scores
           = ["Knowledge"; "Comprehension"; "Application";
              "Analysis"; "Synthesis"; "Evaluation"]
        /\ _classify_blooms_level question = Ok level
        /\ earliest_max scores level)
  /\ blooms_scores scenario_b
     = Ok [("Knowledge", 0); ("Comprehension", 0); ("Application", 0);
           ("Analysis", 1); ("Synthesis", 0); ("Evaluation", 1)]
  /\ _classify_blooms_level scenario_b = Ok "Analysis"
  /\ _detect_ambiguity scenario_b = (true, ["various"; "several"]).
Proof.
  split.
  - intros question.
    destruct (classify_blooms_earliest question) as (level & Hc & _ & He).
    eexists. exists level. split; [apply blooms_scores_closed|].
    split; [reflexivity|]. split; [now rewrite keys_table_scores|]. auto.
  - repeat split; vm_compute; reflexivity.
Qed.

(** C5: for every input sequence the analysis returned satisfies
    sum of the cognitive-level counts = sum of the difficulty counts
    = total_questions = number of question records (= number of inputs). *)
Theorem distribution_sums (questions : list string) :
  exists r : results,
    analyze_questions questions = Ok r
    /\ sum_values (blooms_distribution r) = total_questions r
    /\ sum_values (difficulty_distribution r) = total_questions r
    /\ length (question_details r) = total_questions r
    /\ total_questions r = length questions.
Proof.
  destruct (analyze_questions_closed questions) as (r & H & Ht & Hb & Hd & Hq).
  exists r. split; [assumption|].
  rewrite Hb, Hd, Hq, Ht, length_details_from.
  rewrite !sum_values_fold_bump, !length_map.
  - repeat split; reflexivity.
  - apply Forall_map, Forall_forall. intros q _. apply estimate_tier_of.
  - apply Forall_map, Forall_forall. intros q _. rewrite keys_zeros.
    apply classify_level_of.
Qed.

(** C6: analysing a permutation of the input yields the records of the
    original input under that same permutation of positions, equal in every
    field but the ordinal, and yields the same two distributions. *)
Theorem analyze_permutation (questions questions' : list string) :
  Permutation questions questions' ->
  exists r r' : results,
    analyze_questions questions = Ok r
    /\ analyze_questions questions' = Ok r'
    /\ (exists p : list nat,
           Permutation p (seq 0 (length questions))
           /\ questions' = permute p questions
           /\ map fields (question_details r')
              = permute p (map fields (question_details r)))
    /\ (forall p : list nat,
           questions' = permute p questions ->
           map fields (question_details r')
           = permute p (map fields (question_details r)))
    /\ map number (question_details r') = seq 1 (length questions')
    /\ blooms_distribution r' = blooms_distribution r
    /\ difficulty_distribution r' = difficulty_distribution r.
Proof.
  intros Hperm.
  destruct (analyze_questions_closed questions) as (r & H & _ & Hb & Hd & Hq).
  destruct (analyze_questions_closed questions') as (r' & H' & _ & Hb' & Hd' & Hq').
  exists r, r'. split; [assumption|]. split; [assumption|].
  assert (Hany : forall p, questions' = permute p questions ->
                           map fields (question_details r')
                           = permute p (map fields (question_details r))).
  { intros p ->. rewrite Hq, Hq', !fields_details_from. symmetry.
    apply permute_map. }
  split; [|split; [exact Hany|split; [|split]]].
  - destruct (permutation_by_positions _ _ Hperm) as (p & Hp & E).
    exists p. auto.
  - rewrite Hq'. clear. generalize 1.
    induction questions' as [|q rest IH]; intros i; cbn; [reflexivity|].
    now rewrite IH.
  - rewrite Hb, Hb'. symmetry. apply fold_bump_perm.
    now apply Permutation_map.
  - rewrite Hd, Hd'. symmetry. apply fold_bump_perm.
    now apply Permutation_map.
Qed.

Lemma analyze_permutation_witness :
  exists r r' : results,
    analyze_questions ["Define DNA."; scenario_b] = Ok r
    /\ analyze_questions [scenario_b; "Define DNA."] = Ok r'
    /\ (exists p : list nat,
           Permutation p (seq 0 (length ["Define DNA."; scenario_b]))
           /\ [scenario_b; "Define DNA."] = permute p ["Define DNA."; scenario_b]
           /\ map fields (question_details r')
              = permute p (map fields (question_details r)))
    /\ (forall p : list nat,
           [scenario_b; "Define DNA."] = permute p ["Define DNA."; scenario_b] ->
           map fields (question_details r')
           = permute p (map fields (question_details r)))
    /\ map number (question_details r') = seq 1 (length [scenario_b; "Define DNA."])
    /\ blooms_distribution r' = blooms_distribution r
    /\ difficulty_distribution r' = difficulty_distribution r.
Proof.
  apply (analyze_permutation ["Define DNA."; scenario_b] [scenario_b; "Define DNA."]).
  apply perm_swap.
Defined.

(** C7: when [total_questions == 0] the scorer returns score 0, grade "N/A"
    and the fixed feedback "No questions to analyze", and nothing else: no
    component score is computed.  The cognitive-balance component would in
    fact raise [ZeroDivisionError] at total 0 on any distribution with an
    entry. *)
Theorem overall_score_no_questions (analysis : results) :
  total_questions analysis = 0 ->
  calculate_overall_score analysis
  = Ok [ ("score", VInt 0); ("grade", VStr "N/A");
         ("feedback", VStr "No questions to analyze") ]
  /\ (forall component,
         In component ["blooms_score"; "difficulty_score"; "quality_score"] ->
         forall scores, calculate_overall_score analysis = Ok scores ->
                        ~ In component (keys scores))
  /\ (blooms_distribution analysis <> [] ->
      _calculate_blooms_score (blooms_distribution analysis)
                              (total_questions analysis)
      = Raise ZeroDivisionError).
Proof.
  intros Hzero. unfold calculate_overall_score. rewrite Hzero. cbn [Nat.eqb].
  split; [reflexivity|]. split.
  - intros component Hc scores Hs. injection Hs as <-.
    cbn in *. intuition (subst; discriminate).
  - intros Hne. unfold _calculate_blooms_score.
    destruct (blooms_distribution analysis) as [|[k v] d]; [congruence|].
    reflexivity.
Qed.

Lemma overall_score_no_questions_witness :
  calculate_overall_score empty_analysis
  = Ok [ ("score", VInt 0); ("grade", VStr "N/A");
         ("feedback", VStr "No questions to analyze") ]
  /\ (forall component,
         In component ["blooms_score"; "difficulty_score"; "quality_score"] ->
         forall scores, calculate_overall_score empty_analysis = Ok scores ->
                        ~ In component (keys scores))
  /\ (blooms_distribution empty_analysis <> [] ->
      _calculate_blooms_score (blooms_distribution empty_analysis)
                              (total_questions empty_analysis)
      = Raise ZeroDivisionError).
Proof.
  apply (overall_score_no_questions empty_analysis). reflexivity.
Defined.

(** C8: the record of the empty-string question has word count 0,
    cognitive level Knowledge, difficulty Easy, is not ambiguous, has
    cognitive load 0 and quality score 85.0, the short-question penalty
    being the only deduction. *)
Theorem empty_string_question :
  exists (r : results) (d : detail),
    analyze_questions [""] = Ok r
    /\ question_details r = [d]
    /\ detail_word_count d = 0
    /\ blooms_level d = "Knowledge"
    /\ difficulty d = "Easy"
    /\ ambiguous d = false
    /\ (cognitive_load d == 0)%Q
    /\ (quality_score d == 85)%Q
    /\ _check_quality_issues "" = []
    /\ (quality_score d == 100 - 15)%Q.
Proof.
  do 2 eexists. split; [vm_compute; reflexivity|].
  repeat split; vm_compute; reflexivity.
Qed.

(** C9: every record of every analysis has its quality score in [0,100]
    and its cognitive load in [0,10]. *)
Theorem score_and_load_in_range (questions : list string) :
  exists r : results,
    analyze_questions questions = Ok r
    /\ length (question_details r) = length questions
    /\ Forall (fun d => (0 <= quality_score d <= 100)%Q
                        /\ (0 <= cognitive_load d <= 10)%Q)
              (question_details r).
Proof.
  destruct (analyze_questions_closed questions) as (r & H & _ & _ & _ & Hq).
  exists r. split; [assumption|]. rewrite Hq.
  split; [apply length_details_from|].
  apply details_from_forall. intros i q.
  cbn [detail_of quality_score cognitive_load].
  split; [|apply estimate_cognitive_load_bounds].
  rewrite calculate_question_score_unclamped
    by apply check_quality_issues_at_most_four.
  pose proof (question_score_raw_bounds q (fst (_detect_ambiguity q))
                (_check_quality_issues q)
                (check_quality_issues_at_most_four q)) as [Hlo Hhi].
  split; [lra|assumption].
Qed.

(** C10: every record of every analysis has quality score at least 25.0:
    at most four quality issues are found for a question, the deductions
    add up to at most 20 + 40 + 15, and the final [max(0.0, score)]
    returns the score unchanged. *)
Theorem quality_score_floor (questions : list string) :
  exists r : results,
    analyze_questions questions = Ok r
    /\ length (question_details r) = length questions
    /\ Forall (fun d =>
                 length (_check_quality_issues (text d)) <= 4
                 /\ (25 <= quality_score d)%Q
                 /\ (100 - quality_score d <= 20 + 40 + 15)%Q
                 /\ quality_score d
                    = question_score_raw (text d) (ambiguous d)
                                         (_check_quality_issues (text d)))
              (question_details r).
Proof.
  destruct (analyze_questions_closed questions) as (r & H & _ & _ & _ & Hq).
  exists r. split; [assumption|]. rewrite Hq.
  split; [apply length_details_from|].
  apply details_from_forall. intros i q.
  cbn [detail_of quality_score text ambiguous].
  pose proof (check_quality_issues_at_most_four q) as Hfour.
  rewrite calculate_question_score_unclamped by assumption.
  pose proof (question_score_raw_bounds q (fst (_detect_ambiguity q))
                (_check_quality_issues q) Hfour) as [Hlo Hhi].
  repeat split; try assumption. lra.
Qed.

(** The floor of C10 is attained: a four-word question that is ambiguous
    and trips all four detectors scores exactly 25. *)
Example lowest_score_is_attained :
  _check_quality_issues "isn't it true,,,not unmany"
  = ["double negative"; "leading question"; "complex sentence"; "vague pronoun"]
  /\ map quality_score (details_from 1 ["isn't it true,,,not unmany"]) = [25%Q].
Proof. split; vm_compute; reflexivity. Qed.

(* ===================================================================== *)
(** ** More about the batch loop *)
(* ===================================================================== *)

Lemma analyze_step_lists (i : nat) (question : string) (r r' : results) :
  analyze_step i question r = Ok r' ->
  ambiguous_questions r'
  = (ambiguous_questions r ++ ambiguous_from i [question])%list
  /\ found_quality_issues r'
     = (found_quality_issues r ++ issues_from i [question])%list.
Proof.
  unfold analyze_step.
  destruct (_classify_blooms_level question); [|discriminate]. cbn [bind].
  destruct (incr (blooms_distribution r) a); [|discriminate]. cbn [bind].
  destruct (_estimate_difficulty question); [|discriminate]. cbn [bind].
  destruct (incr (difficulty_distribution r) a1); [|discriminate]. cbn [bind].
  cbn [ambiguous_from issues_from]. rewrite !app_nil_r.
  destruct (_detect_ambiguity question) as [is_ambiguous found].
  intros H. injection H as <-.
  cbn [ambiguous_questions found_quality_issues fst snd]. split.
  - destruct is_ambiguous; [reflexivity|now rewrite app_nil_r].
  - destruct (_check_quality_issues question); [now rewrite app_nil_r|reflexivity].
Qed.

Lemma analyze_loop_lists (questions : list string) :
  forall (i : nat) (r r' : results),
    analyze_loop i questions r = Ok r' ->
    ambiguous_questions r'
    = (ambiguous_questions r ++ ambiguous_from i questions)%list
    /\ found_quality_issues r'
       = (found_quality_issues r ++ issues_from i questions)%list.
Proof.
  induction questions as [|question rest IH]; intros i r r' H; cbn [analyze_loop] in H.
  - injection H as <-. cbn. now rewrite !app_nil_r.
  - destruct (analyze_step i question r) as [r1|] eqn:Hstep; [|discriminate].
    cbn [bind] in H.
    destruct (analyze_step_lists _ _ _ _ Hstep) as [Ha Hi].
    destruct (IH _ _ _ H) as [Ha' Hi'].
    rewrite Ha', Hi', Ha, Hi. cbn [ambiguous_from issues_from].
    rewrite !app_nil_r, <- !app_assoc. auto.
Qed.

(** Everything [analyze_questions] returns, as functions of its input. *)
Lemma analyze_questions_full (questions : list string) :
  exists r,
    analyze_questions questions = Ok r
    /\ total_questions r = length questions
    /\ blooms_distribution r
       = tally (map level_of questions) (zeros (keys blooms_keywords))
    /\ difficulty_distribution r
       = tally (map tier_of questions) [("Easy", 0); ("Medium", 0); ("Hard", 0)]
    /\ question_details r = details_from 1 questions
    /\ ambiguous_questions r = ambiguous_from 1 questions
    /\ found_quality_issues r = issues_from 1 questions.
Proof.
  destruct (analyze_questions_closed questions) as (r & H & Ht & Hb & Hd & Hq).
  exists r. repeat (split; [assumption|]).
  apply (analyze_loop_lists questions 1 _ r H).
Qed.

Lemma details_from_text (questions : list string) :
  forall i, map text (details_from i questions) = questions.
Proof.
  induction questions as [|q rest IH]; intros i; cbn; [reflexivity|].
  now rewrite IH.
Qed.

Lemma details_from_number (questions : list string) :
  forall i, map number (details_from i questions) = seq i (length questions).
Proof.
  induction questions as [|q rest IH]; intros i; cbn; [reflexivity|].
  now rewrite IH.
Qed.

(** X1: the records come out in input order, one per input question and
    with its text unchanged, numbered 1, 2, ...: nothing is dropped,
    merged or reordered, duplicates included. *)
Theorem records_follow_input (questions : list string) :
  exists r : results,
    analyze_questions questions = Ok r
    /\ map text (question_details r) = questions
    /\ map number (question_details r) = seq 1 (length questions)
    /\ map detail_word_count (question_details r) = map word_count questions.
Proof.
  destruct (analyze_questions_full questions) as (r & H & _ & _ & _ & Hq & _).
  exists r. split; [assumption|]. rewrite Hq.
  split; [apply details_from_text|]. split; [apply details_from_number|].
  clear. generalize 1.
  induction questions as [|q rest IH]; intros i; cbn; [reflexivity|].
  now rewrite IH.
Qed.

Lemma item_bump_same (d : dict nat) (k : string) :
  In k (keys d) -> item (bump k d) k = S (item d k).
Proof.
  unfold item. induction d as [|[k' v] d IH]; intros Hk; [destruct Hk|].
  cbn [bump]. destruct (String.eqb k' k) eqn:E; cbn [get]; rewrite E.
  - lia.
  - apply IH. destruct Hk as [Hk|Hk]; [|assumption].
    cbn in Hk. subst k'. now rewrite String.eqb_refl in E.
Qed.

Lemma item_bump_other (d : dict nat) (k k' : string) :
  k <> k' -> item (bump k d) k' = item d k'.
Proof.
  intros Hne. unfold item. induction d as [|[k0 v] d IH]; [reflexivity|].
  cbn [bump]. destruct (String.eqb_spec k0 k) as [->|H0]; cbn [get].
  - destruct (String.eqb_spec k k'); [contradiction|reflexivity].
  - destruct (String.eqb k0 k'); [reflexivity|apply IH].
Qed.

Lemma item_tally (ks : list string) (k : string) :
  forall d, Forall (fun k => In k (keys d)) ks ->
            item (tally ks d) k = item d k + count_occ string_dec ks k.
Proof.
  unfold tally.
  induction ks as [|k0 ks IH]; intros d Hks; cbn [fold_left count_occ]; [lia|].
  inversion Hks as [|? ? Hk0 Hrest]; subst.
  rewrite IH by (rewrite keys_bump; assumption).
  destruct (string_dec k0 k) as [->|Hne].
  - rewrite item_bump_same by assumption. lia.
  - now rewrite item_bump_other by assumption.
Qed.

Lemma item_zeros (ks : list string) (k : string) : item (zeros ks) k = 0.
Proof.
  unfold item. induction ks as [|k0 ks IH]; [reflexivity|].
  cbn. now destruct (String.eqb k0 k).
Qed.

Lemma levels_in_keys (questions : list string) :
  Forall (fun k => In k (keys (zeros (keys blooms_keywords)))) (map level_of questions).
Proof.
  apply Forall_map, Forall_forall. intros q _. rewrite keys_zeros.
  apply classify_level_of.
Qed.

Lemma tiers_in_keys (questions : list string) :
  Forall (fun k => In k (keys [("Easy", 0); ("Medium", 0); ("Hard", 0)]))
         (map tier_of questions).
Proof.
  apply Forall_map, Forall_forall. intros q _. apply estimate_tier_of.
Qed.

Lemma details_from_levels (questions : list string) :
  forall i, map blooms_level (details_from i questions) = map level_of questions.
Proof.
  induction questions as [|q rest IH]; intros i; cbn; [reflexivity|].
  now rewrite IH.
Qed.

Lemma details_from_tiers (questions : list string) :
  forall i, map difficulty (details_from i questions) = map tier_of questions.
Proof.
  induction questions as [|q rest IH]; intros i; cbn; [reflexivity|].
  now rewrite IH.
Qed.

(** X2: each entry of the two distributions is the number of records that
    carry that level (that tier), and the distributions keep exactly the
    six levels and the three tiers as keys, in their fixed order. *)
Theorem distribution_counts_records (questions : list string) :
  exists r : results,
    analyze_questions questions = Ok r
    /\ keys (blooms_distribution r)
       = ["Knowledge"; "Comprehension"; "Application";
          "Analysis"; "Synthesis"; "Evaluation"]
    /\ keys (difficulty_distribution r) = ["Easy"; "Medium"; "Hard"]
    /\ (forall level : string,
           item (blooms_distribution r) level
           = count_occ string_dec (map blooms_level (question_details r)) level)
    /\ (forall tier : string,
           item (difficulty_distribution r) tier
           = count_occ string_dec (map difficulty (question_details r)) tier).
Proof.
  destruct (analyze_questions_full questions) as (r & H & _ & Hb & Hd & Hq & _).
  exists r. split; [assumption|]. rewrite Hb, Hd, Hq.
  split; [now rewrite keys_fold_bump|]. split; [now rewrite keys_fold_bump|].
  split.
  - intros level. rewrite item_tally by apply levels_in_keys.
    now rewrite item_zeros, details_from_levels.
  - intros tier. rewrite item_tally by apply tiers_in_keys.
    rewrite details_from_tiers.
    change [("Easy", 0); ("Medium", 0); ("Hard", 0)]
      with (zeros ["Easy"; "Medium"; "Hard"]).
    now rewrite item_zeros.
Qed.

Lemma ambiguous_from_spec (questions : list string) :
  forall i,
    map amb_question_number (ambiguous_from i questions)
    = map number (filter ambiguous (details_from i questions))
    /\ map amb_question (ambiguous_from i questions)
       = map text (filter ambiguous (details_from i questions))
    /\ Forall (fun a => indicators a = snd (_detect_ambiguity (amb_question a))
                        /\ indicators a <> [])
              (ambiguous_from i questions).
Proof.
  induction questions as [|q rest IH]; intros i;
    cbn [ambiguous_from details_from filter detail_of ambiguous].
  - repeat split. constructor.
  - destruct (IH (S i)) as (Hn & Hq & Hf).
    destruct (fst (_detect_ambiguity q)) eqn:E; cbn [app map number text].
    + rewrite Hn, Hq. repeat split. constructor; [|assumption].
      cbn [indicators amb_question]. split; [reflexivity|].
      unfold _detect_ambiguity in *. cbn [fst snd] in *.
      destruct (filter _ ambiguity_patterns); [discriminate|discriminate].
    + auto.
Qed.

Lemma issues_from_spec (questions : list string) :
  forall i,
    map iss_question_number (issues_from i questions)
    = map number (filter (fun d => nonempty (_check_quality_issues (text d)))
                         (details_from i questions))
    /\ map iss_question (issues_from i questions)
       = map text (filter (fun d => nonempty (_check_quality_issues (text d)))
                          (details_from i questions))
    /\ Forall (fun it => issues it = _check_quality_issues (iss_question it)
                         /\ issues it <> [])
              (issues_from i questions).
Proof.
  induction questions as [|q rest IH]; intros i;
    cbn [issues_from details_from filter detail_of text].
  - repeat split. constructor.
  - destruct (IH (S i)) as (Hn & Hq & Hf).
    destruct (_check_quality_issues q) as [|x l] eqn:E;
      cbn [app map number text nonempty].
    + auto.
    + rewrite Hn, Hq. repeat split. constructor; [|assumption].
      cbn [issues iss_question]. rewrite E. split; [reflexivity|discriminate].
Qed.

(** X3: ["ambiguous_questions"] lists exactly the records flagged
    ambiguous, in input order, each with its own number and text and with
    the non-empty list of markers found in it. *)
Theorem ambiguous_questions_listing (questions : list string) :
  exists r : results,
    analyze_questions questions = Ok r
    /\ map amb_question_number (ambiguous_questions r)
       = map number (filter ambiguous (question_details r))
    /\ map amb_question (ambiguous_questions r)
       = map text (filter ambiguous (question_details r))
    /\ Forall (fun a => indicators a = snd (_detect_ambiguity (amb_question a))
                        /\ indicators a <> [])
              (ambiguous_questions r)
    /\ length (ambiguous_questions r) <= total_questions r.
Proof.
  destruct (analyze_questions_full questions)
    as (r & H & Ht & _ & _ & Hq & Ha & _).
  exists r. split; [assumption|]. rewrite Ha, Hq, Ht.
  destruct (ambiguous_from_spec questions 1) as (Hn & Hx & Hf).
  repeat (split; [assumption|]).
  rewrite <- (length_map amb_question_number), Hn, length_map.
  rewrite <- (length_details_from questions 1). apply filter_length_le.
Qed.

(** X4: ["quality_issues"] lists exactly the questions for which at least
    one detector fires, in input order, each with its own number and text
    and with the detectors that fired. *)
Theorem quality_issues_listing (questions : list string) :
  exists r : results,
    analyze_questions questions = Ok r
    /\ map iss_question_number (found_quality_issues r)
       = map number (filter (fun d => nonempty (_check_quality_issues (text d)))
                            (question_details r))
    /\ map iss_question (found_quality_issues r)
       = map text (filter (fun d => nonempty (_check_quality_issues (text d)))
                          (question_details r))
    /\ Forall (fun it => issues it = _check_quality_issues (iss_question it)
                         /\ issues it <> [])
              (found_quality_issues r)
    /\ length (found_quality_issues r) <= total_questions r.
Proof.
  destruct (analyze_questions_full questions)
    as (r & H & Ht & _ & _ & Hq & _ & Hi).
  exists r. split; [assumption|]. rewrite Hi, Hq, Ht.
  destruct (issues_from_spec questions 1) as (Hn & Hx & Hf).
  repeat (split; [assumption|]).
  rewrite <- (length_map iss_question_number), Hn, length_map.
  rewrite <- (length_details_from questions 1). apply filter_length_le.
Qed.

(* ===================================================================== *)
(** ** More about the classifiers *)
(* ===================================================================== *)

Lemma lower_char_idempotent (c : ascii) :
  PyStr.lower_char (PyStr.lower_char c) = PyStr.lower_char c.
Proof. destruct c as [[] [] [] [] [] [] [] []]; vm_compute; reflexivity. Qed.

Lemma isspace_lower_char (c : ascii) :
  PyStr.isspace (PyStr.lower_char c) = PyStr.isspace c.
Proof. destruct c as [[] [] [] [] [] [] [] []]; vm_compute; reflexivity. Qed.

Lemma lower_idempotent (s : string) : PyStr.lower (PyStr.lower s) = PyStr.lower s.
Proof.
  induction s as [|c s IH]; cbn; [reflexivity|].
  now rewrite lower_char_idempotent, IH.
Qed.

Lemma lower_app (s t : string) :
  PyStr.lower (s ++ t) = PyStr.lower s ++ PyStr.lower t.
Proof. induction s as [|c s IH]; cbn; [reflexivity|]. now rewrite IH. Qed.

Lemma is_empty_snoc (w : string) (c : ascii) :
  PyStr.is_empty (w ++ String c "") = false.
Proof. now destruct w. Qed.

Lemma split_from_lower_length (s : string) :
  forall w w' : string,
    PyStr.is_empty w = PyStr.is_empty w' ->
    length (PyStr.split_from w (PyStr.lower s)) = length (PyStr.split_from w' s).
Proof.
  induction s as [|c s IH]; intros w w' Hw; cbn [PyStr.lower PyStr.split_from].
  - rewrite Hw. now destruct (PyStr.is_empty w').
  - rewrite isspace_lower_char, Hw. destruct (PyStr.isspace c).
    + destruct (PyStr.is_empty w'); cbn [length]; [|f_equal]; now apply IH.
    + apply IH. now rewrite !is_empty_snoc.
Qed.

Lemma word_count_lower (question : string) :
  word_count (PyStr.lower question) = word_count question.
Proof. unfold word_count, PyStr.split. now apply split_from_lower_length. Qed.

(** X5: the classifiers are case-insensitive: two questions that differ
    only in letter case (equal after [lower]) get the same cognitive level,
    difficulty, ambiguity markers, quality issues, cognitive load, word
    count and quality score. *)
Theorem classification_ignores_case (q1 q2 : string) :
  PyStr.lower q1 = PyStr.lower q2 ->
  _classify_blooms_level q1 = _classify_blooms_level q2
  /\ _estimate_difficulty q1 = _estimate_difficulty q2
  /\ _detect_ambiguity q1 = _detect_ambiguity q2
  /\ _check_quality_issues q1 = _check_quality_issues q2
  /\ _estimate_cognitive_load q1 = _estimate_cognitive_load q2
  /\ word_count q1 = word_count q2
  /\ fields (detail_of 0 (PyStr.lower q1)) = fields (detail_of 0 (PyStr.lower q2))
  /\ (forall is_ambiguous issues,
         _calculate_question_score q1 is_ambiguous issues
         = _calculate_question_score q2 is_ambiguous issues).
Proof.
  intros Hlow.
  assert (Hwc : word_count q1 = word_count q2).
  { rewrite <- (word_count_lower q1), <- (word_count_lower q2). now rewrite Hlow. }
  unfold _classify_blooms_level, _estimate_difficulty, blooms_scores,
    difficulty_scores, _detect_ambiguity, _check_quality_issues,
    _estimate_cognitive_load, _calculate_question_score, question_score_raw.
  rewrite Hlow, Hwc. repeat split; reflexivity.
Qed.

Lemma classification_ignores_case_witness :
  _classify_blooms_level "DEFINE Dna." = _classify_blooms_level "define DNA."
  /\ _estimate_difficulty "DEFINE Dna." = _estimate_difficulty "define DNA."
  /\ _detect_ambiguity "DEFINE Dna." = _detect_ambiguity "define DNA."
  /\ _check_quality_issues "DEFINE Dna." = _check_quality_issues "define DNA."
  /\ _estimate_cognitive_load "DEFINE Dna." = _estimate_cognitive_load "define DNA."
  /\ word_count "DEFINE Dna." = word_count "define DNA."
  /\ fields (detail_of 0 (PyStr.lower "DEFINE Dna."))
     = fields (detail_of 0 (PyStr.lower "define DNA."))
  /\ (forall is_ambiguous issues,
         _calculate_question_score "DEFINE Dna." is_ambiguous issues
         = _calculate_question_score "define DNA." is_ambiguous issues).
Proof.
  apply (classification_ignores_case "DEFINE Dna." "define DNA."). reflexivity.
Defined.

Lemma prefix_nil (s : string) : String.prefix "" s = true.
Proof. now destruct s. Qed.

Lemma prefix_app (n s t : string) :
  String.prefix n s = true -> String.prefix n (s ++ t) = true.
Proof.
  revert n. induction s as [|d s IH]; intros n H.
  - destruct n; [apply prefix_nil|discriminate H].
  - destruct n as [|c n]; [apply prefix_nil|].
    cbn in *. destruct (Ascii.ascii_dec c d); [now apply IH|discriminate].
Qed.

Lemma contains_app_l (n s t : string) :
  PyStr.contains n s = true -> PyStr.contains n (s ++ t) = true.
Proof.
  induction s as [|c s IH]; cbn [PyStr.contains]; intros H.
  - rewrite orb_false_r in H. destruct n; [|discriminate H].
    cbn [append]. destruct t; reflexivity.
  - apply orb_true_iff in H. apply orb_true_iff. destruct H as [H|H].
    + left. now apply (prefix_app n (String c s) t).
    + right. now apply IH.
Qed.

Lemma contains_app_r (n s t : string) :
  PyStr.contains n t = true -> PyStr.contains n (s ++ t) = true.
Proof.
  intros H. induction s as [|c s IH]; [assumption|].
  cbn [append PyStr.contains]. apply orb_true_iff. now right.
Qed.

(** X6: adding text before or after a question never removes an ambiguity
    marker: every marker found in the question is found in the longer
    text, so an ambiguous question stays ambiguous. *)
Theorem ambiguity_survives_added_text (before question after : string) :
  incl (snd (_detect_ambiguity question))
       (snd (_detect_ambiguity (before ++ question ++ after)))
  /\ Bool.le (fst (_detect_ambiguity question))
             (fst (_detect_ambiguity (before ++ question ++ after))).
Proof.
  assert (Hincl : incl (snd (_detect_ambiguity question))
                       (snd (_detect_ambiguity (before ++ question ++ after)))).
  { unfold _detect_ambiguity. cbn [snd]. intros m Hm.
    apply filter_In in Hm. destruct Hm as [Hin Hc]. apply filter_In.
    split; [assumption|]. rewrite !lower_app.
    now apply contains_app_r, contains_app_l. }
  split; [assumption|].
  unfold _detect_ambiguity in *. cbn [fst snd] in *.
  generalize dependent
    (filter (fun indicator =>
               PyStr.contains indicator (PyStr.lower (before ++ question ++ after)))
            ambiguity_patterns).
  generalize
    (filter (fun indicator => PyStr.contains indicator (PyStr.lower question))
            ambiguity_patterns).
  intros found found' Hincl.
  destruct found as [|m l]; [exact I|].
  destruct found'; [exfalso; exact (Hincl m (or_introl eq_refl))|reflexivity].
Qed.

Lemma filter_none {A : Type} (f : A -> bool) (l : list A) :
  (forall x, In x l -> f x = false) -> filter f l = [].
Proof.
  induction l as [|x l IH]; intros H; cbn; [reflexivity|].
  rewrite (H x (or_introl eq_refl)). apply IH. intros y Hy. apply H. now right.
Qed.

(** X7: a question that contains none of the difficulty keywords is
    rated by its length alone: Hard above 20 words, Medium from 11 to 20,
    Easy up to 10. *)
Theorem difficulty_by_length_alone (question : string) :
  (forall tier keywords keyword,
      In (tier, keywords) difficulty_keywords ->
      In keyword keywords ->
      PyStr.contains keyword (PyStr.lower question) = false) ->
  _estimate_difficulty question
  = Ok (if 20 <? word_count question then "Hard"
        else if 10 <? word_count question then "Medium"
        else "Easy").
Proof.
  intros Hnone.
  assert (Hz : forall tier keywords,
             In (tier, keywords) difficulty_keywords ->
             hits (difficulty_hit (PyStr.lower question)) keywords = 0).
  { intros tier keywords Hin. unfold hits.
    rewrite filter_none; [reflexivity|].
    intros kw Hkw. unfold difficulty_hit. now apply (Hnone tier keywords). }
  unfold _estimate_difficulty. rewrite difficulty_scores_closed.
  unfold table_scores, difficulty_keywords in *. cbn [map fst snd].
  rewrite (Hz "Easy" _ (or_introl eq_refl)).
  rewrite (Hz "Medium" _ (or_intror (or_introl eq_refl))).
  rewrite (Hz "Hard" _ (or_intror (or_intror (or_introl eq_refl)))).
  unfold length_tier.
  destruct (20 <? word_count question);
    [|destruct (10 <? word_count question)]; reflexivity.
Qed.

Lemma difficulty_by_length_alone_witness :
  _estimate_difficulty "2 + 2 = ?"
  = Ok (if 20 <? word_count "2 + 2 = ?" then "Hard"
        else if 10 <? word_count "2 + 2 = ?" then "Medium"
        else "Easy").
Proof.
  apply (difficulty_by_length_alone "2 + 2 = ?").
  intros tier keywords keyword Hin Hkw.
  cbn in Hin.
  repeat (destruct Hin as [Hin|Hin];
          [injection Hin as <- <-; cbn in Hkw;
           repeat (destruct Hkw as [<-|Hkw]; [reflexivity|]); destruct Hkw|]).
  destruct Hin.
Defined.

Lemma rep_matches (cls : ascii -> bool) (s : string) :
  forall (n : nat) (before : option ascii),
    nonempty (Re.rep n cls before s) = starts_with_run n cls s.
Proof.
  induction s as [|c s IH]; intros n before; cbn [Re.rep].
  - destruct n; reflexivity.
  - destruct n as [|n]; [reflexivity|].
    cbn [Nat.eqb app pred starts_with_run].
    destruct (cls c); [apply IH|reflexivity].
Qed.

Lemma search_rep (n : nat) (cls : ascii -> bool) (s : string) :
  forall before,
    Re.search_from (Re.Rep n cls) before s = true
    <-> exists a rest, s = a ++ rest /\ starts_with_run n cls rest = true.
Proof.
  induction s as [|c s IH]; intros before; cbn [Re.search_from];
    unfold Re.matches_at; cbn [Re.ends fst snd];
    change (match Re.rep n cls before ?x with [] => false | _ :: _ => true end)
      with (nonempty (Re.rep n cls before x));
    rewrite rep_matches, orb_true_iff.
  - split.
    + intros [H|H]; [|discriminate]. now exists "", "".
    + intros (a & rest & E & H). left.
      destruct a; [|discriminate]. cbn in E. now subst rest.
  - rewrite IH. split.
    + intros [H|(a & rest & E & H)].
      * now exists "", (String c s).
      * exists (String c a), rest. cbn. now rewrite E.
    + intros (a & rest & E & H). destruct a as [|d a].
      * left. cbn in E. now subst rest.
      * right. cbn in E. injection E as _ E. now exists a, rest.
Qed.

Lemma starts_with_run_lower (n : nat) (s : string) :
  starts_with_run n comma_or_semicolon (PyStr.lower s)
  = starts_with_run n comma_or_semicolon s.
Proof.
  revert s. induction n as [|n IH]; intros s; [reflexivity|].
  destruct s as [|c s]; [reflexivity|]. cbn [PyStr.lower starts_with_run].
  rewrite IH. f_equal.
  destruct c as [[] [] [] [] [] [] [] []]; vm_compute; reflexivity.
Qed.

Lemma split_lower (s a' rest' : string) :
  PyStr.lower s = a' ++ rest' ->
  exists a rest, s = a ++ rest /\ PyStr.lower rest = rest'.
Proof.
  revert s. induction a' as [|c a' IH]; intros s E.
  - now exists "", s.
  - destruct s as [|d s]; [discriminate|].
    cbn in E. injection E as _ E. destruct (IH s E) as (a & rest & -> & H).
    now exists (String d a), rest.
Qed.

Lemma issue_reported (name : string) (r : Re.regex) (question : string) :
  In (name, r) quality_issues ->
  (In name (_check_quality_issues question)
   <-> Re.search r (PyStr.lower question) = true).
Proof.
  intros Hin. unfold _check_quality_issues.
  rewrite in_map_iff. split.
  - intros ([name' r'] & E & H). cbn in E. subst name'.
    apply filter_In in H. destruct H as [Hin' Hs]. cbn [snd] in Hs.
    assert (r' = r); [|now subst].
    unfold quality_issues in Hin, Hin'. cbn [In] in Hin, Hin'.
    repeat (destruct Hin as [Hin|Hin]; [injection Hin as <- <-|]);
      try (now destruct Hin);
      repeat (destruct Hin' as [Hin'|Hin'];
              [first [injection Hin' as <-; reflexivity | discriminate Hin']|]);
      now destruct Hin'.
  - intros Hs. exists (name, r). split; [reflexivity|].
    apply filter_In. now split.
Qed.

(** X8: the "complex sentence" detector fires exactly when the question
    contains three adjacent characters that are each a comma or a
    semicolon; separators with text between them do not count. *)
Theorem complex_sentence_needs_adjacent_separators (question : string) :
  In "complex sentence" (_check_quality_issues question)
  <-> exists a c1 c2 c3 b,
        question = a ++ String c1 (String c2 (String c3 b))
        /\ comma_or_semicolon c1 = true
        /\ comma_or_semicolon c2 = true
        /\ comma_or_semicolon c3 = true.
Proof.
  rewrite (issue_reported "complex sentence" (Re.Rep 3 comma_or_semicolon));
    [|unfold quality_issues; cbn [In]; auto].
  unfold Re.search. rewrite search_rep. split.
  - intros (a' & rest' & E & H).
    destruct (split_lower _ _ _ E) as (a & rest & -> & <-).
    rewrite starts_with_run_lower in H.
    destruct rest as [|c1 [|c2 [|c3 b]]]; cbn in H;
      rewrite ?andb_false_r in H; try discriminate.
    apply andb_true_iff in H. destruct H as [H1 H].
    apply andb_true_iff in H. destruct H as [H2 H].
    apply andb_true_iff in H. destruct H as [H3 _].
    exists a, c1, c2, c3, b. auto.
  - intros (a & c1 & c2 & c3 & b & -> & H1 & H2 & H3).
    exists (PyStr.lower a), (PyStr.lower (String c1 (String c2 (String c3 b)))).
    split; [apply lower_app|].
    rewrite starts_with_run_lower. cbn. now rewrite H1, H2, H3.
Qed.

(* ===================================================================== *)
(** ** More about the suggestions *)
(* ===================================================================== *)

Lemma generate_suggestions_parts (analysis : results) :
  generate_suggestions analysis
  = (flat_map (level_suggestions (total_questions analysis))
              (blooms_distribution analysis)
     ++ flat_map (tier_suggestions (total_questions analysis))
                 (difficulty_distribution analysis)
     ++ map ambiguity_suggestion (ambiguous_questions analysis)
     ++ map issue_suggestion (found_quality_issues analysis))%list.
Proof. reflexivity. Qed.

Lemma of_type_app (t : string) (l l' : list suggestion) :
  of_type t (l ++ l') = (of_type t l ++ of_type t l')%list.
Proof. apply filter_app. Qed.

Lemma of_type_flat_map {A : Type} (t : string) (f : A -> list suggestion)
      (l : list A) :
  of_type t (flat_map f l) = flat_map (fun x => of_type t (f x)) l.
Proof.
  induction l as [|x l IH]; cbn [flat_map]; [reflexivity|].
  now rewrite of_type_app, IH.
Qed.

Lemma flat_map_nil {A B : Type} (f : A -> list B) (l : list A) :
  (forall x, f x = []) -> flat_map f l = [].
Proof.
  intros H. induction l as [|x l IH]; cbn; [reflexivity|]. now rewrite H, IH.
Qed.

Lemma of_type_map_all {A : Type} (t : string) (f : A -> suggestion) (l : list A) :
  (forall x, type_ (f x) = t) -> of_type t (map f l) = map f l.
Proof.
  intros H. unfold of_type. induction l as [|x l IH]; cbn [map filter]; [reflexivity|].
  now rewrite H, String.eqb_refl, IH.
Qed.

Lemma of_type_map_none {A : Type} (t : string) (f : A -> suggestion) (l : list A) :
  (forall x, String.eqb (type_ (f x)) t = false) -> of_type t (map f l) = [].
Proof.
  intros H. unfold of_type. induction l as [|x l IH]; cbn [map filter]; [reflexivity|].
  now rewrite H, IH.
Qed.

Lemma level_suggestions_types (t : string) (total : nat) (entry : string * nat) :
  t <> "missing_level" -> t <> "low_representation" ->
  of_type t (level_suggestions total entry) = [].
Proof.
  intros H1 H2. destruct entry as [level count]. unfold level_suggestions, of_type.
  destruct (count =? 0); [|destruct (Qltb _ _)]; cbn [filter type_];
    try reflexivity.
  - destruct (String.eqb_spec "missing_level" t); [congruence|reflexivity].
  - destruct (String.eqb_spec "low_representation" t); [congruence|reflexivity].
Qed.

Lemma tier_suggestions_types (t : string) (total : nat) (entry : string * nat) :
  t <> "difficulty_imbalance" -> of_type t (tier_suggestions total entry) = [].
Proof.
  intros H1. destruct entry as [level count]. unfold tier_suggestions, of_type.
  destruct (Qltb _ _); cbn [filter type_]; try reflexivity.
  destruct (String.eqb_spec "difficulty_imbalance" t); [congruence|reflexivity].
Qed.

(** X9: every ambiguous question and every question with quality issues
    gets its own high-priority suggestion, in input order and referring to
    its number; none is merged or dropped, so a question listed in both
    gets two suggestions. *)
Theorem per_question_suggestions (analysis : results) :
  of_type "ambiguity" (generate_suggestions analysis)
  = map ambiguity_suggestion (ambiguous_questions analysis)
  /\ of_type "quality_issue" (generate_suggestions analysis)
     = map issue_suggestion (found_quality_issues analysis)
  /\ map about (of_type "ambiguity" (generate_suggestions analysis))
     = map (fun item => QuestionNumber (amb_question_number item))
           (ambiguous_questions analysis)
  /\ map about (of_type "quality_issue" (generate_suggestions analysis))
     = map (fun item => QuestionNumber (iss_question_number item))
           (found_quality_issues analysis)
  /\ Forall (fun s => priority s = "high")
            (of_type "ambiguity" (generate_suggestions analysis)
             ++ of_type "quality_issue" (generate_suggestions analysis)).
Proof.
  assert (Ha : of_type "ambiguity" (generate_suggestions analysis)
               = map ambiguity_suggestion (ambiguous_questions analysis)).
  { rewrite generate_suggestions_parts, !of_type_app, !of_type_flat_map.
    rewrite (flat_map_nil (fun x => of_type _ (level_suggestions _ x)))
      by (intros x; apply level_suggestions_types; discriminate).
    rewrite (flat_map_nil (fun x => of_type _ (tier_suggestions _ x)))
      by (intros x; apply tier_suggestions_types; discriminate).
    rewrite of_type_map_all by reflexivity.
    rewrite of_type_map_none by reflexivity.
    now rewrite app_nil_r. }
  assert (Hi : of_type "quality_issue" (generate_suggestions analysis)
               = map issue_suggestion (found_quality_issues analysis)).
  { rewrite generate_suggestions_parts, !of_type_app, !of_type_flat_map.
    rewrite (flat_map_nil (fun x => of_type _ (level_suggestions _ x)))
      by (intros x; apply level_suggestions_types; discriminate).
    rewrite (flat_map_nil (fun x => of_type _ (tier_suggestions _ x)))
      by (intros x; apply tier_suggestions_types; discriminate).
    rewrite of_type_map_none by reflexivity.
    now rewrite of_type_map_all by reflexivity. }
  rewrite Ha, Hi, !map_map. repeat split.
  apply Forall_app. split; apply Forall_map, Forall_forall; reflexivity.
Qed.

Lemma of_type_level_missing (total : nat) (entry : string * nat) :
  of_type "missing_level" (level_suggestions total entry)
  = if snd entry =? 0 then level_suggestions total entry else [].
Proof.
  destruct entry as [level count]. unfold level_suggestions, of_type. cbn [snd].
  destruct (count =? 0); [reflexivity|]. now destruct (Qltb _ _).
Qed.

Lemma level_suggestions_at_most_one (total : nat) (entry : string * nat) :
  length (level_suggestions total entry) <= 1.
Proof.
  destruct entry as [level count]. unfold level_suggestions.
  destruct (count =? 0); [|destruct (Qltb _ _)]; cbn; lia.
Qed.

Lemma of_type_levels (t : string) (analysis : results) :
  t = "missing_level" \/ t = "low_representation" ->
  of_type t (generate_suggestions analysis)
  = flat_map (fun entry => of_type t (level_suggestions (total_questions analysis) entry))
             (blooms_distribution analysis).
Proof.
  intros Ht. rewrite generate_suggestions_parts, !of_type_app, !of_type_flat_map.
  rewrite (flat_map_nil (fun x => of_type _ (tier_suggestions _ x)))
    by (intros x; apply tier_suggestions_types; destruct Ht; subst; discriminate).
  rewrite !of_type_map_none
    by (intros x; destruct Ht; subst; reflexivity).
  now rewrite !app_nil_r.
Qed.

Lemma of_type_tiers (analysis : results) :
  of_type "difficulty_imbalance" (generate_suggestions analysis)
  = flat_map (tier_suggestions (total_questions analysis))
             (difficulty_distribution analysis).
Proof.
  rewrite generate_suggestions_parts, !of_type_app, !of_type_flat_map.
  rewrite (flat_map_nil (fun x => of_type _ (level_suggestions _ x)))
    by (intros x; apply level_suggestions_types; discriminate).
  rewrite !of_type_map_none by reflexivity.
  rewrite !app_nil_r. cbn [app]. apply flat_map_ext. intros [level count].
  unfold tier_suggestions, of_type. now destruct (Qltb _ _).
Qed.

Lemma missing_level_suggestion (total : nat) (entry : string * nat) :
  (snd entry =? 0) = true ->
  map about (level_suggestions total entry) = [Level (fst entry)]
  /\ Forall (fun s => priority s = "high") (level_suggestions total entry).
Proof.
  destruct entry as [level count]. unfold level_suggestions. cbn [fst snd].
  intros ->. split; [reflexivity|]. constructor; [reflexivity|constructor].
Qed.

Lemma of_two_types (t1 t2 : string) (l : list suggestion) :
  t1 <> t2 -> length (of_type t1 l) + length (of_type t2 l) <= length l.
Proof.
  intros Hne. unfold of_type. induction l as [|x l IH]; cbn [filter length]; [lia|].
  destruct (String.eqb_spec (type_ x) t1), (String.eqb_spec (type_ x) t2);
    cbn [length]; try lia. congruence.
Qed.

Lemma flat_map_length_le {A B : Type} (f : A -> list B) (l : list A) :
  (forall x, length (f x) <= 1) -> length (flat_map f l) <= length l.
Proof.
  intros H. induction l as [|x l IH]; cbn [flat_map length]; [lia|].
  rewrite length_app. specialize (H x). lia.
Qed.

(** X10: whatever the total, the levels reported missing are exactly the
    levels whose count is 0, in the order of the distribution and with
    high priority, and no level gets more than one suggestion. *)
Theorem missing_levels_reported (analysis : results) :
  map about (of_type "missing_level" (generate_suggestions analysis))
  = map (fun entry => Level (fst entry))
        (filter (fun entry => snd entry =? 0) (blooms_distribution analysis))
  /\ Forall (fun s => priority s = "high")
            (of_type "missing_level" (generate_suggestions analysis))
  /\ length (of_type "missing_level" (generate_suggestions analysis))
     + length (of_type "low_representation" (generate_suggestions analysis))
     <= length (blooms_distribution analysis).
Proof.
  rewrite !of_type_levels by auto.
  generalize (total_questions analysis) as total.
  generalize (blooms_distribution analysis) as d. intros d total.
  split; [|split].
  - induction d as [|entry d IH]; cbn [flat_map filter map]; [reflexivity|].
    rewrite map_app, IH, of_type_level_missing.
    destruct (snd entry =? 0) eqn:E; [|reflexivity].
    now rewrite (proj1 (missing_level_suggestion total entry E)).
  - induction d as [|entry d IH]; cbn [flat_map]; [constructor|].
    apply Forall_app. split; [|assumption].
    rewrite of_type_level_missing.
    destruct (snd entry =? 0) eqn:E; [|constructor].
    now apply missing_level_suggestion.
  - rewrite <- !of_type_flat_map.
    etransitivity; [apply of_two_types; discriminate|].
    apply flat_map_length_le, level_suggestions_at_most_one.
Qed.

Lemma Qltb_lt (a b : Q) : Qltb a b = true <-> (a < b)%Q.
Proof.
  unfold Qltb. rewrite negb_true_iff. split.
  - intros H. apply Qnot_le_lt. intros Hle. apply Qle_bool_iff in Hle. congruence.
  - intros H. destruct (Qle_bool b a) eqn:E; [|reflexivity].
    apply Qle_bool_iff in E. exfalso. now apply (Qlt_not_le a b).
Qed.

Lemma of_int_lt (n m : nat) : (of_int n < of_int m)%Q <-> n < m.
Proof. unfold of_int. rewrite <- Zlt_Qlt. lia. Qed.

Lemma of_int_mult (n m : nat) : (of_int (n * m) == of_int n * of_int m)%Q.
Proof. unfold of_int. now rewrite Nat2Z.inj_mul, inject_Z_mult. Qed.

Lemma of_int_positive (n : nat) : 0 < n -> (0 < of_int n)%Q.
Proof. intros H. change 0%Q with (of_int 0). now apply of_int_lt. Qed.

Lemma percentage_times_total (c t : nat) :
  0 < t -> (percentage_of c t * of_int t == of_int c * 100)%Q.
Proof.
  intros Ht. unfold percentage_of. destruct (Nat.ltb_spec 0 t); [|lia].
  field. intros H0. apply of_int_positive in Ht.
  rewrite H0 in Ht. now apply (Qlt_irrefl 0).
Qed.

(** [count / total * 100 < k] as a comparison of integers. *)
Lemma percentage_lt (c t k : nat) :
  0 < t -> ((percentage_of c t < of_int k)%Q <-> 100 * c < k * t).
Proof.
  intros Ht. pose proof (of_int_positive t Ht) as Hpos.
  rewrite <- (Qmult_lt_r _ _ _ Hpos), percentage_times_total by assumption.
  change 100%Q with (of_int 100).
  rewrite <- !of_int_mult, of_int_lt. lia.
Qed.

Lemma three_tiers (d : dict nat) :
  keys d = ["Easy"; "Medium"; "Hard"] ->
  exists e m h, d = [("Easy", e); ("Medium", m); ("Hard", h)].
Proof.
  destruct d as [|[k1 e] [|[k2 m] [|[k3 h] [|]]]]; cbn; try discriminate.
  intros H. injection H as -> -> ->. now exists e, m, h.
Qed.

Lemma zero_counts_below_length (d : dict nat) :
  0 < sum_values d -> length (filter (fun entry => snd entry =? 0) d) < length d.
Proof.
  induction d as [|[k v] d IH]; [cbn; lia|].
  rewrite sum_values_cons. intros H. cbn [filter snd length].
  pose proof (filter_length_le (fun entry : string * nat => snd entry =? 0) d).
  destruct v as [|v]; cbn [Nat.eqb length]; [|lia].
  apply IH in H. lia.
Qed.

Lemma ambiguous_from_length (questions : list string) :
  forall i, length (ambiguous_from i questions) <= length questions.
Proof.
  induction questions as [|q rest IH]; intros i; cbn [ambiguous_from length]; [lia|].
  rewrite length_app. specialize (IH (S i)).
  destruct (fst (_detect_ambiguity q)); cbn [length]; lia.
Qed.

Lemma issues_from_length (questions : list string) :
  forall i, length (issues_from i questions) <= length questions.
Proof.
  induction questions as [|q rest IH]; intros i; cbn [issues_from length]; [lia|].
  rewrite length_app. specialize (IH (S i)).
  destruct (_check_quality_issues q); cbn [length]; lia.
Qed.

(** The analysis of a list of questions, with what the suggestion
    generator and the scorer need to know about it. *)
Lemma analysis_shape (questions : list string) :
  exists (r : results) (e m h : nat),
    analyze_questions questions = Ok r
    /\ total_questions r = length questions
    /\ difficulty_distribution r = [("Easy", e); ("Medium", m); ("Hard", h)]
    /\ e + m + h = length questions
    /\ length (blooms_distribution r) = 6
    /\ sum_values (blooms_distribution r) = length questions
    /\ length (ambiguous_questions r) <= length questions
    /\ length (found_quality_issues r) <= length questions.
Proof.
  destruct (analyze_questions_full questions)
    as (r & H & Ht & Hb & Hd & _ & Ha & Hi).
  assert (Hkd : keys (difficulty_distribution r) = ["Easy"; "Medium"; "Hard"])
    by (rewrite Hd; now rewrite keys_fold_bump).
  destruct (three_tiers _ Hkd) as (e & m & h & Hd').
  exists r, e, m, h. repeat (split; [assumption|]). split; [|split; [|split; [|split]]].
  - assert (Hs : sum_values (difficulty_distribution r) = length questions).
    { rewrite Hd, sum_values_fold_bump by apply tiers_in_keys.
      now rewrite length_map. }
    rewrite Hd' in Hs. unfold sum_values in Hs. cbn in Hs. lia.
  - rewrite <- (length_map fst). fold (keys (blooms_distribution r)).
    rewrite Hb. now rewrite keys_fold_bump.
  - rewrite Hb, sum_values_fold_bump by apply levels_in_keys.
    now rewrite length_map.
  - rewrite Ha. apply ambiguous_from_length.
  - rewrite Hi. apply issues_from_length.
Qed.

Lemma missing_level_count (analysis : results) :
  length (of_type "missing_level" (generate_suggestions analysis))
  = length (filter (fun entry => snd entry =? 0) (blooms_distribution analysis)).
Proof.
  rewrite of_type_levels by auto.
  generalize (total_questions analysis) as total.
  generalize (blooms_distribution analysis) as d. intros d total.
  induction d as [|entry d IH]; cbn [flat_map filter]; [reflexivity|].
  rewrite length_app, IH, of_type_level_missing.
  destruct (snd entry =? 0) eqn:E; [|reflexivity].
  rewrite <- (length_map about), (proj1 (missing_level_suggestion total entry E)).
  reflexivity.
Qed.

Lemma tier_suggestions_length (total : nat) (level : string) (count : nat) :
  length (tier_suggestions total (level, count))
  = if Qltb (percentage_of count total) 20 then 1 else 0.
Proof. unfold tier_suggestions. now destruct (Qltb _ _). Qed.

Lemma below_twenty (count total : nat) :
  0 < total ->
  Qltb (percentage_of count total) 20 = true -> 5 * count < total.
Proof.
  intros Ht H. apply Qltb_lt in H. change 20%Q with (of_int 20) in H.
  apply percentage_lt in H; [lia|assumption].
Qed.

(** X11: for a non-empty list of questions at most two of the three
    difficulty tiers are reported below 20%, and at most five of the six
    levels are reported missing. *)
Theorem suggestions_for_nonempty_input (questions : list string) :
  questions <> [] ->
  exists r : results,
    analyze_questions questions = Ok r
    /\ length (of_type "difficulty_imbalance" (generate_suggestions r)) <= 2
    /\ length (of_type "missing_level" (generate_suggestions r)) <= 5.
Proof.
  intros Hne.
  destruct (analysis_shape questions)
    as (r & e & m & h & H & Ht & Hd & Hsum & Hlen & Hsb & _).
  assert (Hpos : 0 < length questions) by (destruct questions; [congruence|cbn; lia]).
  exists r. split; [assumption|]. split.
  - rewrite of_type_tiers, Hd, Ht. cbn [flat_map].
    rewrite !length_app, !tier_suggestions_length. cbn [length].
    destruct (Qltb (percentage_of e _) 20) eqn:Ee;
      destruct (Qltb (percentage_of m _) 20) eqn:Em;
      destruct (Qltb (percentage_of h _) 20) eqn:Eh; try lia.
    apply below_twenty in Ee, Em, Eh; try assumption. lia.
  - rewrite missing_level_count.
    assert (Hz := zero_counts_below_length (blooms_distribution r)).
    rewrite Hsb, Hlen in Hz. specialize (Hz Hpos). lia.
Qed.

Lemma suggestions_for_nonempty_input_witness :
  exists r : results,
    analyze_questions ["Define DNA."] = Ok r
    /\ length (of_type "difficulty_imbalance" (generate_suggestions r)) <= 2
    /\ length (of_type "missing_level" (generate_suggestions r)) <= 5.
Proof.
  apply (suggestions_for_nonempty_input ["Define DNA."]). discriminate.
Defined.

Lemma value_le_sum (d : dict nat) (k : string) (v : nat) :
  In (k, v) d -> v <= sum_values d.
Proof.
  induction d as [|[k' v'] d IH]; intros H; [destruct H|].
  rewrite sum_values_cons. destruct H as [H|H].
  - injection H as _ ->. lia.
  - apply IH in H. lia.
Qed.

Lemma flat_map_nil_in {A B : Type} (f : A -> list B) (l : list A) :
  (forall x, In x l -> f x = []) -> flat_map f l = [].
Proof.
  induction l as [|x l IH]; intros H; cbn [flat_map]; [reflexivity|].
  rewrite (H x (or_introl eq_refl)), IH; [reflexivity|].
  intros y Hy. apply H. now right.
Qed.

Lemma of_type_level_low (total : nat) (level : string) (count : nat) :
  of_type "low_representation" (level_suggestions total (level, count)) <> [] ->
  0 < count /\ Qltb (percentage_of count total) 10 = true.
Proof.
  unfold level_suggestions, of_type.
  destruct (Nat.eqb_spec count 0) as [->|Hc].
  - intros H. now contradiction H.
  - destruct (Qltb _ _); [split; [lia|reflexivity]|].
    intros H. now contradiction H.
Qed.

(** X12: a paper of at most ten questions never gets a
    "low_representation" suggestion: a level with one question already
    holds 10% of such a paper. *)
Theorem no_low_representation_up_to_ten (questions : list string) :
  length questions <= 10 ->
  exists r : results,
    analyze_questions questions = Ok r
    /\ of_type "low_representation" (generate_suggestions r) = [].
Proof.
  intros Hten.
  destruct (analysis_shape questions)
    as (r & e & m & h & H & Ht & _ & _ & _ & Hsb & _).
  exists r. split; [assumption|].
  rewrite of_type_levels by auto. apply flat_map_nil_in.
  intros [level count] Hin.
  destruct (of_type "low_representation" (level_suggestions _ _)) eqn:E;
    [reflexivity|].
  exfalso.
  destruct (of_type_level_low (total_questions r) level count) as [Hc Hlt];
    [rewrite E; discriminate|].
  apply value_le_sum in Hin. rewrite Hsb in Hin. rewrite Ht in Hlt.
  apply Qltb_lt in Hlt. change 10%Q with (of_int 10) in Hlt.
  apply percentage_lt in Hlt; lia.
Qed.

Lemma no_low_representation_up_to_ten_witness :
  exists r : results,
    analyze_questions ["Define DNA."; scenario_b] = Ok r
    /\ of_type "low_representation" (generate_suggestions r) = [].
Proof.
  apply (no_low_representation_up_to_ten ["Define DNA."; scenario_b]). cbn. lia.
Defined.

(* ===================================================================== *)
(** ** More about the scorer *)
(* ===================================================================== *)

Lemma of_int_plus (n m : nat) : (of_int (n + m) == of_int n + of_int m)%Q.
Proof. unfold of_int. now rewrite Nat2Z.inj_add, inject_Z_plus. Qed.

Lemma percentage_nonneg (c t : nat) : (0 <= percentage_of c t)%Q.
Proof.
  unfold percentage_of. destruct (0 <? t); [|apply Qle_refl].
  apply Qmult_le_0_compat; [|discriminate].
  unfold Qdiv. apply Qmult_le_0_compat; [apply of_int_nonneg|].
  apply Qinv_le_0_compat, of_int_nonneg.
Qed.

Lemma percentage_le_100 (c t : nat) : c <= t -> (percentage_of c t <= 100)%Q.
Proof.
  intros Hc. destruct (Nat.eq_dec t 0) as [->|Ht].
  - discriminate.
  - assert (Hpos : 0 < t) by lia.
    apply Qnot_lt_le. intros H. change 100%Q with (of_int 100) in H.
    pose proof (of_int_positive t Hpos) as HT.
    rewrite <- (Qmult_lt_r _ _ _ HT), percentage_times_total in H by assumption.
    change 100%Q with (of_int 100) in H.
    rewrite <- !of_int_mult in H. apply of_int_lt in H. lia.
Qed.

Lemma percentage_sum3 (e m h : nat) :
  0 < e + m + h ->
  (percentage_of e (e + m + h) + percentage_of m (e + m + h)
   + percentage_of h (e + m + h) == 100)%Q.
Proof.
  intros Ht. pose proof (of_int_positive _ Ht) as HT.
  apply (Qmult_inj_r _ _ (of_int (e + m + h))).
  - intros H0. rewrite H0 in HT. now apply (Qlt_irrefl 0).
  - rewrite !Qmult_plus_distr_l, !percentage_times_total by assumption.
    rewrite !of_int_plus. ring.
Qed.

Lemma true_div_percentage (c t : nat) :
  0 < t ->
  (q <- true_div c t ;; Ok (q * 100)%Q) = Ok (percentage_of c t).
Proof.
  intros Ht. unfold true_div, percentage_of.
  destruct (Nat.eqb_spec t 0); [lia|].
  destruct (Nat.ltb_spec 0 t); [reflexivity|lia].
Qed.

Lemma half_deviation_bounds (p ideal : Q) :
  (0 <= Qabs (p - ideal) * (1 # 2))%Q
  /\ (Qabs (p - ideal) * (1 # 2) == (p - ideal) * (1 # 2)
      \/ Qabs (p - ideal) * (1 # 2) == (ideal - p) * (1 # 2))%Q.
Proof.
  split.
  - apply Qmult_le_0_compat; [apply Qabs_nonneg|discriminate].
  - apply (Qabs_case (p - ideal)); intros _; [left; reflexivity|right; ring].
Qed.

(** The difficulty score of the three counts, before the clamp. *)
Lemma calculate_difficulty_score_closed (e m h total : nat) :
  0 < total ->
  _calculate_difficulty_score [("Easy", e); ("Medium", m); ("Hard", h)] total
  = Ok (max2 0 (100 - Qabs (percentage_of e total - of_int 30) * (1 # 2)
                    - Qabs (percentage_of m total - of_int 40) * (1 # 2)
                    - Qabs (percentage_of h total - of_int 30) * (1 # 2)))%Q.
Proof.
  intros Ht. unfold _calculate_difficulty_score, ideal_percentages.
  cbn [for_each]. destruct (Nat.ltb_spec 0 total); [|lia].
  cbn [get String.eqb Ascii.eqb Bool.eqb bind].
  rewrite !true_div_percentage by assumption. reflexivity.
Qed.

Lemma difficulty_score_bounds (e m h : nat) :
  0 < e + m + h ->
  exists s : Q,
    _calculate_difficulty_score [("Easy", e); ("Medium", m); ("Hard", h)]
                                (e + m + h) = Ok s
    /\ (30 <= s <= 100)%Q.
Proof.
  intros Ht.
  - rewrite calculate_difficulty_score_closed by assumption.
    eexists. split; [reflexivity|].
    pose proof (percentage_sum3 e m h Ht) as Hsum.
    pose proof (percentage_nonneg e (e + m + h)) as He.
    pose proof (percentage_nonneg m (e + m + h)) as Hm.
    pose proof (percentage_nonneg h (e + m + h)) as Hh.
    change (of_int 30) with 30%Q. change (of_int 40) with 40%Q.
    generalize dependent (percentage_of e (e + m + h)).
    generalize dependent (percentage_of m (e + m + h)).
    generalize dependent (percentage_of h (e + m + h)).
    intros ph Hh pm Hm pe Hsum He.
    destruct (half_deviation_bounds pe 30) as [H1 H1'].
    destruct (half_deviation_bounds pm 40) as [H2 H2'].
    destruct (half_deviation_bounds ph 30) as [H3 H3'].
    generalize dependent (Qabs (pe - 30) * (1 # 2))%Q.
    generalize dependent (Qabs (pm - 40) * (1 # 2))%Q.
    generalize dependent (Qabs (ph - 30) * (1 # 2))%Q.
    intros d3 H3 H3' d2 H2 H2' d1 H1 H1'.
    destruct (max2_cases 0 (100 - d1 - d2 - d3)) as [[Hlt ->]|[Hle ->]];
      destruct H1' as [H1'|H1'], H2' as [H2'|H2'], H3' as [H3'|H3']; lra.
Qed.

(** X13: for three tier counts that are not all zero and their sum as
    total, the difficulty-balance score is returned (no exception) and lies
    between 30 and 100; with total 0 the distribution is not read at all
    and the score is 50. *)
Theorem difficulty_score_range (e m h : nat) :
  0 < e + m + h ->
  (exists s : Q,
      _calculate_difficulty_score [("Easy", e); ("Medium", m); ("Hard", h)]
                                  (e + m + h) = Ok s
      /\ (30 <= s <= 100)%Q)
  /\ (forall d : dict nat,
         exists s : Q, _calculate_difficulty_score d 0 = Ok s /\ (s == 50)%Q).
Proof.
  intros Ht. split.
  - now apply difficulty_score_bounds.
  - intros d. unfold _calculate_difficulty_score, ideal_percentages.
    cbn [for_each Nat.ltb Nat.leb bind]. eexists. split; [reflexivity|].
    vm_compute. reflexivity.
Qed.

Lemma difficulty_score_range_witness :
  (exists s : Q,
      _calculate_difficulty_score [("Easy", 3); ("Medium", 0); ("Hard", 1)]
                                  (3 + 0 + 1) = Ok s
      /\ (30 <= s <= 100)%Q)
  /\ (forall d : dict nat,
         exists s : Q, _calculate_difficulty_score d 0 = Ok s /\ (s == 50)%Q).
Proof. apply (difficulty_score_range 3 0 1). cbn. lia. Defined.

Lemma max2_ge_l (a b : Q) : (a <= max2 a b)%Q.
Proof. destruct (max2_cases a b) as [[H ->]|[H ->]]; lra. Qed.

Lemma min2_le_l (a b : Q) : (min2 a b <= a)%Q.
Proof. destruct (min2_cases a b) as [[H ->]|[H ->]]; lra. Qed.

Lemma fold_max2_ge (ps : list Q) : forall p, (p <= fold_left max2 ps p)%Q.
Proof.
  induction ps as [|x ps IH]; intros p; cbn [fold_left]; [apply Qle_refl|].
  apply Qle_trans with (max2 p x); [apply max2_ge_l|apply IH].
Qed.

Lemma fold_min2_le (ps : list Q) : forall p, (fold_left min2 ps p <= p)%Q.
Proof.
  induction ps as [|x ps IH]; intros p; cbn [fold_left]; [apply Qle_refl|].
  apply Qle_trans with (min2 p x); [apply IH|apply min2_le_l].
Qed.

Lemma percentages_computed (total : nat) (counts : list nat) :
  0 < total ->
  map_m (fun count => q <- true_div count total ;; Ok (q * 100)%Q) counts
  = Ok (map (fun count => percentage_of count total) counts).
Proof.
  intros Ht. induction counts as [|c counts IH]; cbn [map_m map]; [reflexivity|].
  now rewrite true_div_percentage, IH by assumption.
Qed.

Lemma blooms_score_bounds (distribution : dict nat) (total : nat) :
  0 < total ->
  length distribution <= 6 ->
  exists s : Q,
    _calculate_blooms_score distribution total = Ok s /\ (0 <= s <= 100)%Q.
Proof.
  intros Ht Hsix. unfold _calculate_blooms_score.
  rewrite percentages_computed by assumption. cbn [bind].
  eexists. split; [reflexivity|].
  set (represented := length (filter _ (values distribution))).
  assert (Hr : represented <= 6).
  { unfold represented.
    etransitivity; [apply filter_length_le|]. unfold values. now rewrite length_map. }
  pose proof (of_int_nonneg represented) as Hr0.
  apply of_int_le in Hr. change (of_int 6) with 6%Q in Hr.
  generalize dependent (of_int represented). intros rep Hr0 Hr.
  assert (Hrep : (0 <= rep / 6 * 50 <= 50)%Q).
  { split.
    - apply Qmult_le_0_compat; [|discriminate].
      unfold Qdiv. apply Qmult_le_0_compat; [assumption|discriminate].
    - setoid_replace (rep / 6 * 50)%Q with (rep * (50 # 6))%Q by field. lra. }
  generalize dependent (rep / 6 * 50)%Q. intros score Hscore.
  set (balance := match map _ (values distribution) with [] => _ | _ :: _ => _ end).
  assert (Hbal : (balance <= 50)%Q).
  { unfold balance. destruct (map _ (values distribution)) as [|p ps]; [discriminate|].
    pose proof (fold_max2_ge ps p). pose proof (fold_min2_le ps p). lra. }
  generalize dependent balance. intros balance Hbal.
  destruct (max2_cases 0 (score + balance)) as [[H ->]|[H ->]]; lra.
Qed.

(** X14: for a positive total and a distribution of at most six levels
    the cognitive-balance score is returned (no exception) and lies
    between 0 and 100; an empty distribution scores 0 whatever the total,
    0 included, since nothing is divided. *)
Theorem blooms_score_range (distribution : dict nat) (total : nat) :
  0 < total ->
  length distribution <= 6 ->
  (exists s : Q,
      _calculate_blooms_score distribution total = Ok s /\ (0 <= s <= 100)%Q)
  /\ (forall t : nat,
         exists s : Q, _calculate_blooms_score [] t = Ok s /\ (s == 0)%Q).
Proof.
  intros Ht Hsix. split.
  - now apply blooms_score_bounds.
  - intros t. unfold _calculate_blooms_score. cbn [values map map_m bind].
    eexists. split; [reflexivity|]. vm_compute. reflexivity.
Qed.

Lemma blooms_score_range_witness :
  (exists s : Q,
      _calculate_blooms_score (blooms_distribution empty_analysis) 4 = Ok s
      /\ (0 <= s <= 100)%Q)
  /\ (forall t : nat,
         exists s : Q, _calculate_blooms_score [] t = Ok s /\ (s == 0)%Q).
Proof.
  apply (blooms_score_range (blooms_distribution empty_analysis) 4); cbn; lia.
Defined.

Lemma true_div_half_percentage (c t : nat) :
  0 < t ->
  (q <- true_div c t ;; Ok (q * 100 * (1 # 2))%Q)
  = Ok (percentage_of c t * (1 # 2))%Q.
Proof.
  intros Ht. unfold true_div, percentage_of.
  destruct (Nat.eqb_spec t 0); [lia|].
  destruct (Nat.ltb_spec 0 t); [reflexivity|lia].
Qed.

Lemma quality_score_bounds (analysis : results) (total : nat) :
  0 < total ->
  length (ambiguous_questions analysis) <= total ->
  length (found_quality_issues analysis) <= total ->
  exists s : Q,
    _calculate_quality_score analysis total = Ok s
    /\ (0 <= s <= 100)%Q
    /\ (s == 100
             - percentage_of (length (ambiguous_questions analysis)) total * (1 # 2)
             - percentage_of (length (found_quality_issues analysis)) total * (1 # 2))%Q.
Proof.
  intros Ht Ha Hi. unfold _calculate_quality_score.
  destruct (Nat.ltb_spec 0 total); [|lia].
  rewrite !true_div_half_percentage by assumption. cbn [bind].
  eexists. split; [reflexivity|].
  pose proof (percentage_nonneg (length (ambiguous_questions analysis)) total).
  pose proof (percentage_nonneg (length (found_quality_issues analysis)) total).
  pose proof (percentage_le_100 _ _ Ha). pose proof (percentage_le_100 _ _ Hi).
  generalize dependent (percentage_of (length (ambiguous_questions analysis)) total).
  generalize dependent (percentage_of (length (found_quality_issues analysis)) total).
  intros pi Hpi0 Hpi pa Hpa0 Hpa.
  destruct (max2_cases 0 (100 - pa * (1 # 2) - pi * (1 # 2))) as [[H' ->]|[H' ->]];
    split; lra.
Qed.

(** X15: for a positive total and no more flagged questions than
    questions, the quality component is returned (no exception), lies
    between 0 and 100 and is never clamped: it is 100 minus half the
    percentage of ambiguous questions minus half the percentage of
    questions with quality issues.  With total 0 nothing is divided and
    the component is 100, whatever the two lists hold. *)
Theorem quality_score_range (analysis : results) (total : nat) :
  0 < total ->
  length (ambiguous_questions analysis) <= total ->
  length (found_quality_issues analysis) <= total ->
  (exists s : Q,
      _calculate_quality_score analysis total = Ok s
      /\ (0 <= s <= 100)%Q
      /\ (s == 100
               - percentage_of (length (ambiguous_questions analysis)) total * (1 # 2)
               - percentage_of (length (found_quality_issues analysis)) total * (1 # 2))%Q)
  /\ (exists s : Q, _calculate_quality_score analysis 0 = Ok s /\ (s == 100)%Q).
Proof.
  intros Ht Ha Hi. split.
  - now apply quality_score_bounds.
  - unfold _calculate_quality_score. cbn [Nat.ltb Nat.leb bind].
    eexists. split; [reflexivity|]. vm_compute. reflexivity.
Qed.

Lemma quality_score_range_witness :
  (exists s : Q,
      _calculate_quality_score empty_analysis 3 = Ok s
      /\ (0 <= s <= 100)%Q
      /\ (s == 100
               - percentage_of (length (ambiguous_questions empty_analysis)) 3 * (1 # 2)
               - percentage_of (length (found_quality_issues empty_analysis)) 3 * (1 # 2))%Q)
  /\ (exists s : Q, _calculate_quality_score empty_analysis 0 = Ok s /\ (s == 100)%Q).
Proof. apply (quality_score_range empty_analysis 3); cbn; lia. Defined.

Lemma round_half_even_ge (x : Q) (n : Z) :
  (inject_Z n <= x)%Q -> (n <= round_half_even x)%Z.
Proof.
  intros H. apply Qfloor_resp_le in H. rewrite Qfloor_Z in H.
  unfold round_half_even.
  destruct (Qltb _ _); [assumption|].
  destruct (Qltb _ _); [lia|]. destruct (Z.even _); lia.
Qed.

Lemma round_half_even_le (x : Q) (n : Z) :
  (x <= inject_Z n)%Q -> (round_half_even x <= n)%Z.
Proof.
  intros H. pose proof (Qfloor_le x) as Hf.
  assert (Hfn : (Qfloor x <= n)%Z).
  { apply Qfloor_resp_le in H. now rewrite Qfloor_Z in H. }
  unfold round_half_even.
  destruct (Qltb (x - inject_Z (Qfloor x)) (1 # 2)) eqn:E; [assumption|].
  assert (Hhalf : (inject_Z (Qfloor x) < inject_Z n)%Q).
  { destruct (Qlt_le_dec (x - inject_Z (Qfloor x)) (1 # 2)) as [Hlt|Hge].
    - apply Qltb_lt in Hlt. congruence.
    - lra. }
  rewrite <- Zlt_Qlt in Hhalf.
  destruct (Qltb (1 # 2) _); [lia|]. destruct (Z.even _); lia.
Qed.

Lemma round2_bounds (x : Q) (lo hi : Z) :
  (inject_Z lo <= x <= inject_Z hi)%Q ->
  (inject_Z lo <= round2 x <= inject_Z hi)%Q.
Proof.
  intros [Hlo Hhi]. unfold round2. split.
  - apply Qle_shift_div_l; [reflexivity|].
    change 100%Q with (inject_Z 100). rewrite <- inject_Z_mult, <- Zle_Qle.
    apply round_half_even_ge. rewrite inject_Z_mult.
    change (inject_Z 100) with 100%Q. lra.
  - apply Qle_shift_div_r; [reflexivity|].
    change 100%Q with (inject_Z 100). rewrite <- inject_Z_mult, <- Zle_Qle.
    apply round_half_even_le. rewrite inject_Z_mult.
    change (inject_Z 100) with 100%Q. lra.
Qed.

(** The scorer on the analysis of a non-empty list: the three components
    and the dictionary built from them. *)
Lemma overall_score_closed (questions : list string) :
  questions <> [] ->
  exists (r : results) (b d q : Q),
    analyze_questions questions = Ok r
    /\ (0 <= b <= 100)%Q /\ (30 <= d <= 100)%Q /\ (0 <= q <= 100)%Q
    /\ calculate_overall_score r
       = Ok [ ("score", VFloat (round2 (b * (4 # 10) + d * (3 # 10) + q * (3 # 10))));
              ("grade",
               VStr (if Qle_bool 90 (b * (4 # 10) + d * (3 # 10) + q * (3 # 10))
                     then "Excellent"
                     else if Qle_bool 75 (b * (4 # 10) + d * (3 # 10) + q * (3 # 10))
                     then "Good"
                     else if Qle_bool 60 (b * (4 # 10) + d * (3 # 10) + q * (3 # 10))
                     then "Fair"
                     else "Needs Improvement"));
              ("blooms_score", VFloat (round2 b));
              ("difficulty_score", VFloat (round2 d));
              ("quality_score", VFloat (round2 q));
              ("feedback",
               VStr (_generate_feedback
                       (b * (4 # 10) + d * (3 # 10) + q * (3 # 10))
                       (if Qle_bool 90 (b * (4 # 10) + d * (3 # 10) + q * (3 # 10))
                        then "Excellent"
                        else if Qle_bool 75 (b * (4 # 10) + d * (3 # 10) + q * (3 # 10))
                        then "Good"
                        else if Qle_bool 60 (b * (4 # 10) + d * (3 # 10) + q * (3 # 10))
                        then "Fair"
                        else "Needs Improvement"))) ].
Proof.
  intros Hne.
  destruct (analysis_shape questions)
    as (r & e & m & h & H & Ht & Hd & Hsum & Hlen & _ & Ha & Hi).
  assert (Hpos : 0 < length questions) by (destruct questions; [congruence|cbn; lia]).
  destruct (blooms_score_bounds (blooms_distribution r) (length questions))
    as (b & Hb & Hbr); [assumption|lia|].
  destruct (difficulty_score_bounds e m h) as (d & Hds & Hdr); [lia|].
  destruct (quality_score_bounds r (length questions)) as (q & Hq & Hqr & _);
    try assumption.
  exists r, b, d, q. repeat (split; [assumption|]).
  unfold calculate_overall_score. rewrite Ht.
  destruct (Nat.eqb_spec (length questions) 0); [lia|].
  rewrite Hb, Hd, <- Hsum, Hds, Hsum, Hq. reflexivity.
Qed.



Lemma Qle_bool_false (a b : Q) : Qle_bool a b = false -> (b < a)%Q.
Proof.
  intros H. apply Qnot_le_lt. intros Hle. apply Qle_bool_iff in Hle. congruence.
Qed.

(** X17: on the analysis of a non-empty list the grade, the feedback
    sentence and the reported (rounded) score agree: Excellent comes with
    a score of at least 90, Good with a score from 75 to 90, Fair with a
    score from 60 to 75 and Needs Improvement with a score of at most 60,
    each with the feedback sentence of that grade. *)
Theorem grade_matches_score (questions : list string) :
  questions <> [] ->
  exists (r : results) (scores : dict pyval) (s : Q) (g f : string),
    analyze_questions questions = Ok r
    /\ calculate_overall_score r = Ok scores
    /\ get scores "score" = Ok (VFloat s)
    /\ get scores "grade" = Ok (VStr g)
    /\ get scores "feedback" = Ok (VStr f)
    /\ ((g = "Excellent"
         /\ f = "Excellent question paper with comprehensive cognitive level coverage and good balance."
         /\ (90 <= s <= 100)%Q)
        \/ (g = "Good"
            /\ f = "Good question paper. Minor improvements suggested for better balance."
            /\ (75 <= s <= 90)%Q)
        \/ (g = "Fair"
            /\ f = "Fair question paper. Several improvements needed for comprehensive coverage."
            /\ (60 <= s <= 75)%Q)
        \/ (g = "Needs Improvement"
            /\ f = "Significant improvements needed. Review suggestions carefully."
            /\ (9 <= s <= 60)%Q)).
Proof.
  intros Hne.
  destruct (overall_score_closed questions Hne)
    as (r & b & d & q & H & Hb & Hd & Hq & Hs).
  do 5 eexists. split; [exact H|]. split; [exact Hs|].
  split; [reflexivity|]. split; [reflexivity|]. split; [reflexivity|].
  unfold _generate_feedback.
  assert (Ho : (9 <= b * (4 # 10) + d * (3 # 10) + q * (3 # 10) <= 100)%Q) by lra.
  generalize dependent (b * (4 # 10) + d * (3 # 10) + q * (3 # 10))%Q.
  intros o _ Ho.
  destruct (Qle_bool 90 o) eqn:E90.
  { left. apply Qle_bool_iff in E90. repeat split; try reflexivity;
      apply (round2_bounds o 90 100); change (inject_Z 90) with 90%Q;
      change (inject_Z 100) with 100%Q; lra. }
  apply Qle_bool_false in E90.
  destruct (Qle_bool 75 o) eqn:E75.
  { right. left. apply Qle_bool_iff in E75. repeat split; try reflexivity;
      apply (round2_bounds o 75 90); change (inject_Z 75) with 75%Q;
      change (inject_Z 90) with 90%Q; lra. }
  apply Qle_bool_false in E75.
  destruct (Qle_bool 60 o) eqn:E60.
  { right. right. left. apply Qle_bool_iff in E60. repeat split; try reflexivity;
      apply (round2_bounds o 60 75); change (inject_Z 60) with 60%Q;
      change (inject_Z 75) with 75%Q; lra. }
  apply Qle_bool_false in E60.
  right. right. right. repeat split; try reflexivity;
    apply (round2_bounds o 9 60); change (inject_Z 9) with 9%Q;
    change (inject_Z 60) with 60%Q; lra.
Qed.

Lemma grade_matches_score_witness :
  exists (r : results) (scores : dict pyval) (s : Q) (g f : string),
    analyze_questions [scenario_a; scenario_b] = Ok r
    /\ calculate_overall_score r = Ok scores
    /\ get scores "score" = Ok (VFloat s)
    /\ get scores "grade" = Ok (VStr g)
    /\ get scores "feedback" = Ok (VStr f)
    /\ ((g = "Excellent"
         /\ f = "Excellent question paper with comprehensive cognitive level coverage and good balance."
         /\ (90 <= s <= 100)%Q)
        \/ (g = "Good"
            /\ f = "Good question paper. Minor improvements suggested for better balance."
            /\ (75 <= s <= 90)%Q)
        \/ (g = "Fair"
            /\ f = "Fair question paper. Several improvements needed for comprehensive coverage."
            /\ (60 <= s <= 75)%Q)
        \/ (g = "Needs Improvement"
            /\ f = "Significant improvements needed. Review suggestions carefully."
            /\ (9 <= s <= 60)%Q)).
Proof.
  apply (grade_matches_score [scenario_a; scenario_b]). discriminate.
Defined.

(* ===================================================================== *)
(** ** The upload path *)
(* ===================================================================== *)

Lemma contains_dot_cons (c : ascii) (s : string) :
  PyStr.contains "." (String c s) = Ascii.eqb c "." || PyStr.contains "." s.
Proof.
  cbn [PyStr.contains String.prefix]. rewrite prefix_nil. f_equal.
  destruct (Ascii.ascii_dec "." c) as [<-|Hne]; [reflexivity|].
  symmetry. apply Ascii.eqb_neq. congruence.
Qed.

Lemma rsplit1_without_dot (s : string) :
  PyStr.contains "." s = false -> App.rsplit1 "." s = [s].
Proof.
  induction s as [|c s IH]; [reflexivity|].
  rewrite contains_dot_cons. intros H. apply orb_false_iff in H as [Hc Hs].
  cbn [App.rsplit1]. now rewrite (IH Hs), Hc.
Qed.

Lemma rsplit1_at_last_dot (name ext : string) :
  PyStr.contains "." ext = false ->
  App.rsplit1 "." (name ++ String "." ext) = [name; ext].
Proof.
  intros Hext. induction name as [|c name IH]; cbn [append App.rsplit1].
  - now rewrite (rsplit1_without_dot ext Hext).
  - now rewrite IH.
Qed.

Lemma rsplit1_with_dot (s : string) :
  PyStr.contains "." s = true -> exists h t, App.rsplit1 "." s = [h; t].
Proof.
  induction s as [|c s IH]; [discriminate|].
  rewrite contains_dot_cons. intros H. cbn [App.rsplit1].
  destruct (PyStr.contains "." s) eqn:Hs.
  - destruct (IH eq_refl) as (h & t & ->). now exists (String c h), t.
  - rewrite orb_false_r in H. rewrite (rsplit1_without_dot s Hs), H.
    now exists "", s.
Qed.

(** X18: [allowed_file] raises no exception and looks only at the text
    after the last dot, ignoring its case: a name without a dot is
    refused, and [name.ext] (no dot in [ext]) is accepted exactly when
    [ext], lower-cased, is txt, pdf, doc or docx, whatever [name] is. *)
Theorem allowed_file_by_last_extension (name ext : string) :
  PyStr.contains "." ext = false ->
  App.allowed_file (name ++ String "." ext)
  = Some (existsb (String.eqb (PyStr.lower ext)) ["txt"; "pdf"; "doc"; "docx"])
  /\ App.allowed_file ext = Some false
  /\ (forall filename, exists b, App.allowed_file filename = Some b).
Proof.
  intros Hext. unfold App.allowed_file. split; [|split].
  - rewrite contains_app_r by (now rewrite contains_dot_cons).
    now rewrite rsplit1_at_last_dot.
  - now rewrite Hext.
  - intros filename. destruct (PyStr.contains "." filename) eqn:Hd; [|eauto].
    destruct (rsplit1_with_dot _ Hd) as (h & t & ->). cbn. eauto.
Qed.

Lemma allowed_file_by_last_extension_witness :
  App.allowed_file ("paper.final" ++ String "." "TXT")
  = Some (existsb (String.eqb (PyStr.lower "TXT")) ["txt"; "pdf"; "doc"; "docx"])
  /\ App.allowed_file "TXT" = Some false
  /\ (forall filename, exists b, App.allowed_file filename = Some b).
Proof. apply (allowed_file_by_last_extension "paper.final" "TXT"). reflexivity. Defined.

Lemma lstrip_head (s : string) :
  App.lstrip s = ""
  \/ exists c t, App.lstrip s = String c t /\ PyStr.isspace c = false.
Proof.
  induction s as [|c s IH]; [now left|]. cbn [App.lstrip].
  destruct (PyStr.isspace c) eqn:E; [assumption|]. right. now exists c, s.
Qed.

Lemma rstrip_head (c : ascii) (t : string) :
  PyStr.isspace c = false -> App.rstrip (String c t) = String c (App.rstrip t).
Proof. intros E. cbn [App.rstrip]. rewrite E. now destruct (App.rstrip t). Qed.

Lemma strip_head (s : string) :
  App.strip s = ""
  \/ exists c t, App.strip s = String c t /\ PyStr.isspace c = false.
Proof.
  unfold App.strip. destruct (lstrip_head s) as [->|(c & t & -> & E)]; [now left|].
  right. exists c, (App.rstrip t). split; [now apply rstrip_head|assumption].
Qed.

Lemma split_from_nonempty (s : string) :
  forall w, PyStr.is_empty w = false -> 1 <= length (PyStr.split_from w s).
Proof.
  induction s as [|c s IH]; intros w Hw; cbn [PyStr.split_from]; rewrite ?Hw.
  - cbn. lia.
  - destruct (PyStr.isspace c); [cbn; lia|]. apply IH, is_empty_snoc.
Qed.

Lemma word_count_positive (c : ascii) (t : string) :
  PyStr.isspace c = false -> 1 <= word_count (String c t).
Proof.
  intros E. unfold word_count, PyStr.split. cbn [PyStr.split_from]. rewrite E.
  now apply split_from_nonempty.
Qed.

Lemma questions_of_content_words (content : string) :
  Forall (fun q => exists c t, q = String c t /\ PyStr.isspace c = false)
         (App.questions_of_content content).
Proof.
  unfold App.questions_of_content.
  induction (App.split_on "010" content) as [|line lines IH]; cbn [flat_map];
    [constructor|].
  apply Forall_app. split; [|assumption].
  destruct (strip_head line) as [->|(c & t & -> & E)]; cbn [PyStr.is_empty];
    [constructor|].
  constructor; [|constructor]. now exists c, t.
Qed.

Lemma details_from_word_counts (questions : list string) :
  Forall (fun q => 1 <= word_count q) questions ->
  forall i, Forall (fun d => 1 <= detail_word_count d) (details_from i questions).
Proof.
  induction 1 as [|q rest Hq _ IH]; intros i; cbn [details_from]; constructor; auto.
Qed.

(** X19: the questions that [upload_paper] extracts from the uploaded
    text are never empty and start with a non-blank character, so each one
    has at least one word: blank lines never reach the analyzer, and no
    record of the analysis of an upload has word count 0. *)
Theorem uploaded_questions_have_words (content : string) :
  Forall (fun q => q <> ""
                   /\ (exists c t, q = String c t /\ PyStr.isspace c = false)
                   /\ 1 <= word_count q)
         (App.questions_of_content content)
  /\ exists r : results,
       analyze_questions (App.questions_of_content content) = Ok r
       /\ Forall (fun d => 1 <= detail_word_count d) (question_details r).
Proof.
  pose proof (questions_of_content_words content) as Hw.
  assert (Hall : Forall (fun q => q <> ""
                                  /\ (exists c t, q = String c t
                                                  /\ PyStr.isspace c = false)
                                  /\ 1 <= word_count q)
                        (App.questions_of_content content)).
  { apply (Forall_impl _ (P := fun q => exists c t, q = String c t
                                                     /\ PyStr.isspace c = false));
      [|assumption].
    intros q (c & t & -> & E). split; [discriminate|]. split; [now exists c, t|].
    now apply word_count_positive. }
  split; [assumption|].
  destruct (analyze_questions_full (App.questions_of_content content))
    as (r & H & _ & _ & _ & Hq & _).
  exists r. split; [assumption|]. rewrite Hq.
  apply details_from_word_counts.
  apply (Forall_impl _ (P := fun q => q <> ""
                                      /\ (exists c t, q = String c t
                                                      /\ PyStr.isspace c = false)
                                      /\ 1 <= word_count q)); [|assumption].
  now intros q (_ & _ & Hc).
Qed.

Lemma table_scores_no_hit (test : string -> bool) (table : dict (list string)) :
  (forall level keywords keyword,
      In (level, keywords) table -> In keyword keywords -> test keyword = false) ->
  table_scores test table = zeros (keys table).
Proof.
  intros Hnone. unfold table_scores, zeros, keys. rewrite map_map.
  apply map_ext_in. intros [level keywords] Hin. cbn [fst snd]. f_equal.
  unfold hits. rewrite filter_none; [reflexivity|].
  intros kw Hkw. now apply (Hnone level keywords).
Qed.

(** X20: a question in which no cognitive-level keyword occurs as a
    word of its own (or at its very start) is classified as Knowledge. *)
Theorem knowledge_without_keywords (question : string) :
  (forall level keywords keyword,
      In (level, keywords) blooms_keywords ->
      In keyword keywords ->
      blooms_hit (PyStr.lower question) keyword = false) ->
  _classify_blooms_level question = Ok "Knowledge".
Proof.
  intros Hnone. unfold _classify_blooms_level.
  rewrite blooms_scores_closed, (table_scores_no_hit _ _ Hnone). reflexivity.
Qed.

Lemma knowledge_without_keywords_witness :
  _classify_blooms_level "Photosynthesis, explained: how?" = Ok "Knowledge".
Proof.
  apply (knowledge_without_keywords "Photosynthesis, explained: how?").
  intros level keywords keyword Hin Hkw.
  cbn in Hin.
  repeat (destruct Hin as [Hin|Hin];
          [injection Hin as <- <-; cbn in Hkw;
           repeat (destruct Hkw as [<-|Hkw]; [reflexivity|]); destruct Hkw|]).
  destruct Hin.
Defined.
